(** * mujoco_py.mjviewer: a shallow embedding of the interactive viewer

    The development follows [src/mujoco_py/mjviewer.py]: the two viewer
    classes [MjViewerBasic] and [MjViewer] and the worker function
    [save_video].  Python objects are records, attribute assignment is a
    record update, and every method is a computation in a small state and
    exception monad over the whole program state ([World]): the viewer
    object, the simulator it displays, the GLFW window with its queue of
    input events, the wall clock and the trace of calls into the
    libraries the viewer drives.

    Python [float]s are IEEE binary64 numbers: Rocq's primitive [float],
    whose operations are the hardware ones.  Python [int]s are [Z]. *)

From Stdlib Require Import ZArith Floats DecimalString String Ascii Lia.
From stdpp Require Import gmap strings list.

Set Warnings "-inexact-float".
Open Scope Z_scope.

(** ** Python numbers *)

Module Py.

(** The exceptions the modelled code can raise. *)
Inductive Exn : Type :=
| ZeroDivisionError
| OverflowError
| ValueError
| TypeError
| IndexError
| KeyError
| AttributeError.

(** Truth value of a [bool]-or-[None] attribute ([if x:], [while x:]). *)
Definition truthy (x : option bool) : bool :=
  match x with Some b => b | None => false end.

(** [not x] for such an attribute. *)
Definition not_ (x : option bool) : bool := negb (truthy x).

(** An int as a float: the nearest binary64, ties to even (an infinity
    when the int is out of range). *)
Definition to_float (n : Z) : float :=
  SF2Prim (binary_normalize prec emax n 0 false).

(** [float(n)], and the implicit conversion of an int operand: Python
    raises where [to_float] overflows. *)
Definition float_of_int (n : Z) : Exn + float :=
  match binary_normalize prec emax n 0 false with
  | S754_infinity _ => inl OverflowError
  | r => inr (SF2Prim r)
  end.

(** [int(x)] for a float [x]: truncation towards zero. *)
Definition int_of_float (x : float) : Exn + Z :=
  match Prim2SF x with
  | S754_zero _ => inr 0
  | S754_finite s m e =>
      let a := if 0 <=? e then Z.pos m * 2 ^ e else Z.pos m / 2 ^ (- e) in
      inr (if s then - a else a)
  | S754_infinity _ => inl OverflowError
  | S754_nan => inl ValueError
  end.

(** [round(x)] for a float [x]: the nearest int, ties to even. *)
Definition round_float (x : float) : Exn + Z :=
  match Prim2SF x with
  | S754_zero _ => inr 0
  | S754_finite s m e =>
      let a :=
        if 0 <=? e then Z.pos m * 2 ^ e
        else
          let d := 2 ^ (- e) in
          let q := Z.pos m / d in
          let r := Z.pos m mod d in
          match 2 * r ?= d with
          | Lt => q
          | Gt => q + 1
          | Eq => if Z.even q then q else q + 1
          end in
      inr (if s then - a else a)
  | S754_infinity _ => inl OverflowError
  | S754_nan => inl ValueError
  end.

(** [seq[i]] on a list or an array: a negative index counts from the
    end, an index out of range raises. *)
Definition getitem {A : Type} (l : list A) (i : Z) : Exn + A :=
  let k := if i <? 0 then i + Z.of_nat (length l) else i in
  if k <? 0 then inl IndexError
  else match l !! Z.to_nat k with
       | Some a => inr a
       | None => inl IndexError
       end.

(** [seq[i] = v]. *)
Definition setitem {A : Type} (l : list A) (i : Z) (v : A) : Exn + list A :=
  let k := if i <? 0 then i + Z.of_nat (length l) else i in
  if (k <? 0) || (Z.of_nat (length l) <=? k) then inl IndexError
  else inr (<[Z.to_nat k := v]> l).

(** [enumerate(seq)]. *)
Definition enumerate {A : Type} (l : list A) : list (Z * A) :=
  imap (fun i a => (Z.of_nat i, a)) l.

(** [s * n] on a string. *)
Definition str_repeat (s : string) (n : Z) : string :=
  Nat.iter (Z.to_nat n) (String.append s) EmptyString.

(** [x == 0] on floats (both signed zeros). *)
Definition is_zero (x : float) : bool := PrimFloat.eqb x 0%float.

(** [a / b] on floats: Python raises on a zero divisor where IEEE would
    return an infinity or a NaN. *)
Definition float_div (a b : float) : Exn + float :=
  if is_zero b then inl ZeroDivisionError else inr (PrimFloat.div a b).

Definition spec_of_int (n : Z) : spec_float :=
  match n with
  | 0 => S754_zero false
  | Z.pos p => S754_finite false p 0
  | Z.neg p => S754_finite true p 0
  end.

(** [a / b] on ints: true division, the correctly rounded quotient. *)
Definition int_truediv (a b : Z) : Exn + float :=
  if b =? 0 then inl ZeroDivisionError
  else
    match SFdiv prec emax (spec_of_int a) (spec_of_int b) with
    | S754_infinity _ => inl OverflowError
    | r => inr (SF2Prim r)
    end.

(** [str(n)] for an int. *)
Definition str_of_int (n : Z) : string := NilZero.string_of_int (Z.to_int n).

Definition str_of_bool (b : bool) : string := if b then "True" else "False".

(** *** The [%] operator on a format string and one int

    The viewer formats its file names with ["/tmp/video_%07d.mp4" % idx].
    The directives understood are [%d] and [%i] with an optional [0] flag
    and a width, and [%%]; a template with no directive, with two, or with
    anything else after [%] makes Python raise, which is [None] here. *)

Fixpoint pad (c : ascii) (k : nat) (s : string) : string :=
  match k with
  | O => s
  | S k' => String c (pad c k' s)
  end.

Definition format_d (zero : bool) (width : nat) (n : Z) : string :=
  let digits := NilZero.string_of_uint (N.to_uint (Z.abs_N n)) in
  let sign := if n <? 0 then "-"%string else ""%string in
  let missing := (width - (String.length sign + String.length digits))%nat in
  if zero then (sign ++ pad "0" missing digits)%string
  else pad " " missing (sign ++ digits)%string.

Inductive FormatState : Type :=
| InText
| AfterPercent
| InWidth (zero : bool) (width : nat).

Definition digit_of (c : ascii) : option nat :=
  let k := nat_of_ascii c in
  if ((48 <=? k) && (k <=? 57))%nat then Some (k - 48)%nat else None.

Definition is_conversion_d (c : ascii) : bool :=
  (Ascii.eqb c "d" || Ascii.eqb c "i")%bool.

Fixpoint format_go (tpl : string) (st : FormatState) (used : bool) (n : Z)
  : option string :=
  match tpl with
  | EmptyString =>
      match st with
      | InText => if used then Some EmptyString else None
      | _ => None
      end
  | String c rest =>
      match st with
      | InText =>
          if Ascii.eqb c "%" then format_go rest AfterPercent used n
          else String c <$> format_go rest InText used n
      | AfterPercent =>
          if Ascii.eqb c "%" then String c <$> format_go rest InText used n
          else if Ascii.eqb c "0" then format_go rest (InWidth true 0) used n
          else
            match digit_of c with
            | Some d => format_go rest (InWidth false d) used n
            | None =>
                if is_conversion_d c && negb used
                then String.append (format_d false 0 n)
                       <$> format_go rest InText true n
                else None
            end
      | InWidth zero width =>
          match digit_of c with
          | Some d => format_go rest (InWidth zero (10 * width + d)) used n
          | None =>
              if is_conversion_d c && negb used
              then String.append (format_d zero width n)
                     <$> format_go rest InText true n
              else None
          end
      end
  end.

Definition format_int (tpl : string) (n : Z) : option string :=
  format_go tpl InText false n.

End Py.

(** ** Constants of the libraries

    [mujoco_py.generated.const] (generated from MuJoCo's headers) gives the
    enumerations. *)

Inductive mjtMouse : Type :=
| MOUSE_NONE | MOUSE_ROTATE_V | MOUSE_ROTATE_H
| MOUSE_MOVE_V | MOUSE_MOVE_H | MOUSE_ZOOM | MOUSE_SELECT.

Inductive mjtCamera : Type :=
| CAMERA_FREE | CAMERA_TRACKING | CAMERA_FIXED | CAMERA_USER.

Definition GRID_TOPLEFT : Z := 0.
Definition GRID_TOPRIGHT : Z := 1.
Definition GRID_BOTTOMLEFT : Z := 2.
Definition GRID_BOTTOMRIGHT : Z := 3.

(** ** The data model *)

(** A rendered image: rows of pixels of channel values. *)
Definition Image : Type := list (list (list Z)).

(** One entry of a context's [_markers]: the keyword arguments of
    [add_marker]. *)
Inductive MarkerParam : Type :=
| ParamNum (x : float)
| ParamVec (v : list float)
| ParamStr (s : string).

Definition Marker : Type := list (string * MarkerParam).

(** [mjvCamera], as the wrapper object [cam] exposes it.  The two indices
    are C ints; the viewer adds one to [fixedcamid] only, and below the
    number of cameras of the model, itself a C int, that does not
    overflow. *)
Record PyMjvCamera : Type := {
  type : mjtCamera;
  fixedcamid : Z;
  trackbodyid : Z;
  lookat : list float;
  distance : float;
  azimuth : float;
  elevation : float }.

(** [mjvOption]: the fields the viewer touches. *)
Record PyMjvOption : Type := {
  flags : list Z;
  frame : Z;
  geomgroup : list Z }.

(** What every [MjRenderContext] carries and the viewer reads or writes. *)
Record MjRenderContext : Type := {
  _markers : list Marker;
  _overlay : gmap Z (string * string);
  cam : PyMjvCamera }.

(** [sim._render_context_window] is the first window context registered
    with the simulator: this viewer, or a window opened before it (with
    the size of that window's framebuffer). *)
Inductive WindowContext : Type :=
| ThisViewer
| EarlierWindow (c : MjRenderContext) (size : Z * Z).

(** A binary32 number ([geom_rgba] is a float32 array), by its IEEE
    description. *)
Definition float32 : Type := spec_float.
Definition f32_div (a b : float32) : float32 := SFdiv 24 128 a b.
Definition f32_mul (a b : float32) : float32 := SFmul 24 128 a b.
Definition f32_five : float32 := S754_finite false 10485760 (-21).
Definition f32_zero : float32 := S754_zero false.

Record MjModel : Type := {
  ncam : Z;
  opt_timestep : float;
  geom_rgba : list (list float32);
  body_mocapid : list Z;
  geom_bodyid : list Z }.

Record MjSim : Type := {
  model : MjModel;
  data_time : float;
  data_solver_iter : Z;
  nsubsteps : Z;
  extras : gmap Z float32;
  _render_context_offscreen : option MjRenderContext;
  _render_context_window : WindowContext }.

(** The [imageio] writer of a video file. *)
Record Writer : Type := {
  writer_filename : string;
  writer_fps : float;
  writer_frames : list Image;
  writer_closed : bool }.

(** The worker [Process(target=save_video, args=(queue, filename, fps))]. *)
Record Process : Type := {
  process_filename : string;
  process_fps : float;
  process_running : bool }.

(** Attributes set by [MjViewerBasic.__init__]. *)
Record BasicState : Type := {
  window : option Z;
  _button_left_pressed : bool;
  _button_right_pressed : bool;
  _last_mouse_x : Z;
  _last_mouse_y : Z;
  _scale : float;
  exit : bool }.

(** Attributes of [MjViewer] that drive the render loop. *)
Record PlaybackState : Type := {
  _paused : option bool;
  _advance_by_one_step : bool;
  _run_speed : float;
  _loop_count : float;
  _render_every_frame : bool;
  _time_per_render : float;
  _hide_overlay : bool;
  _user_overlay : gmap Z (string * string) }.

(** Attributes of [MjViewer] for video recording and screenshots.
    [_video_process] does not exist until the first recording starts. *)
Record CaptureState : Type := {
  _record_video : bool;
  _video_queue : list (option Image);
  _video_idx : Z;
  _video_path : string;
  _video_process : option Process;
  _image_idx : Z;
  _image_path : string }.

(** The remaining attributes of [MjViewer]: display toggles and the
    commands the user gives to the controlled robot. *)
Record UserState : Type := {
  _show_mocap : bool;
  _transparent : bool;
  target_x : Z;
  target_y : Z;
  target_z : Z;
  reach_mode : string;
  path_vis : bool;
  custom_print : string;
  adapt : bool;
  gripper : Z;
  display_all_text : bool;
  external_force : Z;
  additional_mass : Z;
  gravities : list (string * list float);
  planet : string;
  gravity : list float }.

(** The viewer object.  It is itself a window render context: [ctx] holds
    the attributes it inherits from [cymj.MjRenderContextWindow]. *)
Record Viewer : Type := {
  ctx : MjRenderContext;
  vopt : PyMjvOption;
  basic : BasicState;
  _ncam : Z;
  playback : PlaybackState;
  capture : CaptureState;
  user : UserState }.

(** Input events as GLFW delivers them to the registered callbacks; a
    framebuffer resize and a close request have no callback here and
    only change what the window reports. *)
Inductive GlfwEvent : Type :=
| CursorPos (xpos ypos : float)
| MouseButton (button act mods : Z)
| Scroll (x_offset y_offset : float)
| Key (key scancode action mods : Z)
| FramebufferSize (width height : Z)
| Close.

(** The GLFW window: what its query functions return, and the batches of
    events that successive calls of [glfw.poll_events] will deliver. *)
Record GlfwWindow : Type := {
  framebuffer_size : Z * Z;
  window_size : Z * Z;
  keys_down : list Z;
  buttons_down : list Z;
  cursor_pos : float * float;
  should_close : bool;
  pending : list (list GlfwEvent) }.

(** Calls that leave the program, in the order they are made. *)
Inductive Call : Type :=
| CallPrint (s : string)
| CallWindowRender (c : MjRenderContext)
| CallMoveCamera (action : mjtMouse) (dx dy : float)
| CallSimRender (width height : Z)
| CallImwrite (path : string) (img : Image)
| CallProcessStart (filename : string) (fps : float)
| CallProcessJoin (filename : string).

(** The whole state.  [ticks] are the readings the next calls of
    [time.time()] return ([now] once they are used up); [videos] are the
    files the finished workers have written. *)
Record World : Type := {
  viewer : Viewer;
  sim : MjSim;
  win : GlfwWindow;
  now : float;
  ticks : list float;
  videos : list Writer;
  trace : list Call }.

(** ** Attribute assignment

    [obj.attr = v] rebuilds the record with one field changed. *)

Definition set_type (v : mjtCamera) (c : PyMjvCamera) : PyMjvCamera :=
  {| type := v; fixedcamid := fixedcamid c; trackbodyid := trackbodyid c;
     lookat := lookat c; distance := distance c; azimuth := azimuth c;
     elevation := elevation c |}.
Definition set_fixedcamid (v : Z) (c : PyMjvCamera) : PyMjvCamera :=
  {| type := type c; fixedcamid := v; trackbodyid := trackbodyid c;
     lookat := lookat c; distance := distance c; azimuth := azimuth c;
     elevation := elevation c |}.

Definition set_flags (v : list Z) (o : PyMjvOption) : PyMjvOption :=
  {| flags := v; frame := frame o; geomgroup := geomgroup o |}.
Definition set_frame (v : Z) (o : PyMjvOption) : PyMjvOption :=
  {| flags := flags o; frame := v; geomgroup := geomgroup o |}.
Definition set_geomgroup (v : list Z) (o : PyMjvOption) : PyMjvOption :=
  {| flags := flags o; frame := frame o; geomgroup := v |}.

Definition set__markers (v : list Marker) (c : MjRenderContext) : MjRenderContext :=
  {| _markers := v; _overlay := _overlay c; cam := cam c |}.
Definition set__overlay (v : gmap Z (string * string)) (c : MjRenderContext)
  : MjRenderContext :=
  {| _markers := _markers c; _overlay := v; cam := cam c |}.
Definition set_cam (v : PyMjvCamera) (c : MjRenderContext) : MjRenderContext :=
  {| _markers := _markers c; _overlay := _overlay c; cam := v |}.

Definition set_geom_rgba (v : list (list float32)) (m : MjModel) : MjModel :=
  {| ncam := ncam m; opt_timestep := opt_timestep m; geom_rgba := v;
     body_mocapid := body_mocapid m; geom_bodyid := geom_bodyid m |}.

Definition set_model (v : MjModel) (s : MjSim) : MjSim :=
  {| model := v; data_time := data_time s; data_solver_iter := data_solver_iter s;
     nsubsteps := nsubsteps s; extras := extras s;
     _render_context_offscreen := _render_context_offscreen s;
     _render_context_window := _render_context_window s |}.
Definition set_extras (v : gmap Z float32) (s : MjSim) : MjSim :=
  {| model := model s; data_time := data_time s;
     data_solver_iter := data_solver_iter s;
     nsubsteps := nsubsteps s; extras := v;
     _render_context_offscreen := _render_context_offscreen s;
     _render_context_window := _render_context_window s |}.
Definition set__render_context_offscreen (v : option MjRenderContext) (s : MjSim)
  : MjSim :=
  {| model := model s; data_time := data_time s;
     data_solver_iter := data_solver_iter s;
     nsubsteps := nsubsteps s; extras := extras s;
     _render_context_offscreen := v;
     _render_context_window := _render_context_window s |}.

Definition set_process_running (v : bool) (p : Process) : Process :=
  {| process_filename := process_filename p; process_fps := process_fps p;
     process_running := v |}.

Definition set__button_left_pressed (v : bool) (b : BasicState) : BasicState :=
  {| window := window b; _button_left_pressed := v;
     _button_right_pressed := _button_right_pressed b;
     _last_mouse_x := _last_mouse_x b; _last_mouse_y := _last_mouse_y b;
     _scale := _scale b; exit := exit b |}.
Definition set__button_right_pressed (v : bool) (b : BasicState) : BasicState :=
  {| window := window b; _button_left_pressed := _button_left_pressed b;
     _button_right_pressed := v;
     _last_mouse_x := _last_mouse_x b; _last_mouse_y := _last_mouse_y b;
     _scale := _scale b; exit := exit b |}.
Definition set__last_mouse_x (v : Z) (b : BasicState) : BasicState :=
  {| window := window b; _button_left_pressed := _button_left_pressed b;
     _button_right_pressed := _button_right_pressed b;
     _last_mouse_x := v; _last_mouse_y := _last_mouse_y b;
     _scale := _scale b; exit := exit b |}.
Definition set__last_mouse_y (v : Z) (b : BasicState) : BasicState :=
  {| window := window b; _button_left_pressed := _button_left_pressed b;
     _button_right_pressed := _button_right_pressed b;
     _last_mouse_x := _last_mouse_x b; _last_mouse_y := v;
     _scale := _scale b; exit := exit b |}.
Definition set_exit (v : bool) (b : BasicState) : BasicState :=
  {| window := window b; _button_left_pressed := _button_left_pressed b;
     _button_right_pressed := _button_right_pressed b;
     _last_mouse_x := _last_mouse_x b;
     _last_mouse_y := _last_mouse_y b;
     _scale := _scale b; exit := v |}.

Definition set__paused (v : option bool) (p : PlaybackState) : PlaybackState :=
  {| _paused := v; _advance_by_one_step := _advance_by_one_step p;
     _run_speed := _run_speed p; _loop_count := _loop_count p;
     _render_every_frame := _render_every_frame p;
     _time_per_render := _time_per_render p; _hide_overlay := _hide_overlay p;
     _user_overlay := _user_overlay p |}.
Definition set__advance_by_one_step (v : bool) (p : PlaybackState) : PlaybackState :=
  {| _paused := _paused p; _advance_by_one_step := v;
     _run_speed := _run_speed p; _loop_count := _loop_count p;
     _render_every_frame := _render_every_frame p;
     _time_per_render := _time_per_render p; _hide_overlay := _hide_overlay p;
     _user_overlay := _user_overlay p |}.
Definition set__run_speed (v : float) (p : PlaybackState) : PlaybackState :=
  {| _paused := _paused p;
     _advance_by_one_step := _advance_by_one_step p;
     _run_speed := v; _loop_count := _loop_count p;
     _render_every_frame := _render_every_frame p;
     _time_per_render := _time_per_render p; _hide_overlay := _hide_overlay p;
     _user_overlay := _user_overlay p |}.
Definition set__loop_count (v : float) (p : PlaybackState) : PlaybackState :=
  {| _paused := _paused p;
     _advance_by_one_step := _advance_by_one_step p;
     _run_speed := _run_speed p; _loop_count := v;
     _render_every_frame := _render_every_frame p;
     _time_per_render := _time_per_render p; _hide_overlay := _hide_overlay p;
     _user_overlay := _user_overlay p |}.
Definition set__render_every_frame (v : bool) (p : PlaybackState) : PlaybackState :=
  {| _paused := _paused p;
     _advance_by_one_step := _advance_by_one_step p;
     _run_speed := _run_speed p; _loop_count := _loop_count p;
     _render_every_frame := v;
     _time_per_render := _time_per_render p; _hide_overlay := _hide_overlay p;
     _user_overlay := _user_overlay p |}.
Definition set__time_per_render (v : float) (p : PlaybackState) : PlaybackState :=
  {| _paused := _paused p;
     _advance_by_one_step := _advance_by_one_step p;
     _run_speed := _run_speed p; _loop_count := _loop_count p;
     _render_every_frame := _render_every_frame p;
     _time_per_render := v; _hide_overlay := _hide_overlay p;
     _user_overlay := _user_overlay p |}.
Definition set__hide_overlay (v : bool) (p : PlaybackState) : PlaybackState :=
  {| _paused := _paused p;
     _advance_by_one_step := _advance_by_one_step p;
     _run_speed := _run_speed p; _loop_count := _loop_count p;
     _render_every_frame := _render_every_frame p;
     _time_per_render := _time_per_render p; _hide_overlay := v;
     _user_overlay := _user_overlay p |}.
Definition set__user_overlay (v : gmap Z (string * string)) (p : PlaybackState)
  : PlaybackState :=
  {| _paused := _paused p;
     _advance_by_one_step := _advance_by_one_step p;
     _run_speed := _run_speed p; _loop_count := _loop_count p;
     _render_every_frame := _render_every_frame p;
     _time_per_render := _time_per_render p;
     _hide_overlay := _hide_overlay p;
     _user_overlay := v |}.

Definition set__record_video (v : bool) (c : CaptureState) : CaptureState :=
  {| _record_video := v; _video_queue := _video_queue c;
     _video_idx := _video_idx c; _video_path := _video_path c;
     _video_process := _video_process c; _image_idx := _image_idx c;
     _image_path := _image_path c |}.
Definition set__video_queue (v : list (option Image)) (c : CaptureState)
  : CaptureState :=
  {| _record_video := _record_video c; _video_queue := v;
     _video_idx := _video_idx c; _video_path := _video_path c;
     _video_process := _video_process c; _image_idx := _image_idx c;
     _image_path := _image_path c |}.
Definition set__video_idx (v : Z) (c : CaptureState) : CaptureState :=
  {| _record_video := _record_video c;
     _video_queue := _video_queue c;
     _video_idx := v; _video_path := _video_path c;
     _video_process := _video_process c; _image_idx := _image_idx c;
     _image_path := _image_path c |}.
Definition set__video_process (v : option Process) (c : CaptureState)
  : CaptureState :=
  {| _record_video := _record_video c;
     _video_queue := _video_queue c;
     _video_idx := _video_idx c; _video_path := _video_path c;
     _video_process := v; _image_idx := _image_idx c;
     _image_path := _image_path c |}.
Definition set__image_idx (v : Z) (c : CaptureState) : CaptureState :=
  {| _record_video := _record_video c;
     _video_queue := _video_queue c;
     _video_idx := _video_idx c; _video_path := _video_path c;
     _video_process := _video_process c; _image_idx := v;
     _image_path := _image_path c |}.

Definition set__show_mocap (v : bool) (u : UserState) : UserState :=
  {| _show_mocap := v; _transparent := _transparent u;
     target_x := target_x u; target_y := target_y u; target_z := target_z u;
     reach_mode := reach_mode u; path_vis := path_vis u;
     custom_print := custom_print u; adapt := adapt u; gripper := gripper u;
     display_all_text := display_all_text u;
     external_force := external_force u;
     additional_mass := additional_mass u; gravities := gravities u;
     planet := planet u; gravity := gravity u |}.
Definition set__transparent (v : bool) (u : UserState) : UserState :=
  {| _show_mocap := _show_mocap u; _transparent := v; target_x := target_x u;
     target_y := target_y u; target_z := target_z u;
     reach_mode := reach_mode u; path_vis := path_vis u;
     custom_print := custom_print u; adapt := adapt u; gripper := gripper u;
     display_all_text := display_all_text u;
     external_force := external_force u;
     additional_mass := additional_mass u; gravities := gravities u;
     planet := planet u; gravity := gravity u |}.
Definition set_target_x (v : Z) (u : UserState) : UserState :=
  {| _show_mocap := _show_mocap u; _transparent := _transparent u;
     target_x := v; target_y := target_y u; target_z := target_z u;
     reach_mode := reach_mode u; path_vis := path_vis u;
     custom_print := custom_print u; adapt := adapt u; gripper := gripper u;
     display_all_text := display_all_text u;
     external_force := external_force u;
     additional_mass := additional_mass u; gravities := gravities u;
     planet := planet u; gravity := gravity u |}.
Definition set_target_y (v : Z) (u : UserState) : UserState :=
  {| _show_mocap := _show_mocap u; _transparent := _transparent u;
     target_x := target_x u; target_y := v; target_z := target_z u;
     reach_mode := reach_mode u; path_vis := path_vis u;
     custom_print := custom_print u; adapt := adapt u; gripper := gripper u;
     display_all_text := display_all_text u;
     external_force := external_force u;
     additional_mass := additional_mass u; gravities := gravities u;
     planet := planet u; gravity := gravity u |}.
Definition set_target_z (v : Z) (u : UserState) : UserState :=
  {| _show_mocap := _show_mocap u; _transparent := _transparent u;
     target_x := target_x u; target_y := target_y u; target_z := v;
     reach_mode := reach_mode u; path_vis := path_vis u;
     custom_print := custom_print u; adapt := adapt u; gripper := gripper u;
     display_all_text := display_all_text u;
     external_force := external_force u;
     additional_mass := additional_mass u; gravities := gravities u;
     planet := planet u; gravity := gravity u |}.
Definition set_reach_mode (v : string) (u : UserState) : UserState :=
  {| _show_mocap := _show_mocap u; _transparent := _transparent u;
     target_x := target_x u; target_y := target_y u; target_z := target_z u;
     reach_mode := v; path_vis := path_vis u; custom_print := custom_print u;
     adapt := adapt u; gripper := gripper u;
     display_all_text := display_all_text u;
     external_force := external_force u;
     additional_mass := additional_mass u; gravities := gravities u;
     planet := planet u; gravity := gravity u |}.
Definition set_path_vis (v : bool) (u : UserState) : UserState :=
  {| _show_mocap := _show_mocap u; _transparent := _transparent u;
     target_x := target_x u; target_y := target_y u; target_z := target_z u;
     reach_mode := reach_mode u; path_vis := v;
     custom_print := custom_print u; adapt := adapt u; gripper := gripper u;
     display_all_text := display_all_text u;
     external_force := external_force u;
     additional_mass := additional_mass u; gravities := gravities u;
     planet := planet u; gravity := gravity u |}.
Definition set_adapt (v : bool) (u : UserState) : UserState :=
  {| _show_mocap := _show_mocap u; _transparent := _transparent u;
     target_x := target_x u; target_y := target_y u; target_z := target_z u;
     reach_mode := reach_mode u; path_vis := path_vis u;
     custom_print := custom_print u; adapt := v; gripper := gripper u;
     display_all_text := display_all_text u;
     external_force := external_force u;
     additional_mass := additional_mass u; gravities := gravities u;
     planet := planet u; gravity := gravity u |}.
Definition set_gripper (v : Z) (u : UserState) : UserState :=
  {| _show_mocap := _show_mocap u; _transparent := _transparent u;
     target_x := target_x u; target_y := target_y u; target_z := target_z u;
     reach_mode := reach_mode u; path_vis := path_vis u;
     custom_print := custom_print u; adapt := adapt u; gripper := v;
     display_all_text := display_all_text u;
     external_force := external_force u;
     additional_mass := additional_mass u; gravities := gravities u;
     planet := planet u; gravity := gravity u |}.
Definition set_external_force (v : Z) (u : UserState) : UserState :=
  {| _show_mocap := _show_mocap u; _transparent := _transparent u;
     target_x := target_x u; target_y := target_y u; target_z := target_z u;
     reach_mode := reach_mode u; path_vis := path_vis u;
     custom_print := custom_print u; adapt := adapt u; gripper := gripper u;
     display_all_text := display_all_text u; external_force := v;
     additional_mass := additional_mass u; gravities := gravities u;
     planet := planet u; gravity := gravity u |}.
Definition set_additional_mass (v : Z) (u : UserState) : UserState :=
  {| _show_mocap := _show_mocap u; _transparent := _transparent u;
     target_x := target_x u; target_y := target_y u; target_z := target_z u;
     reach_mode := reach_mode u; path_vis := path_vis u;
     custom_print := custom_print u; adapt := adapt u; gripper := gripper u;
     display_all_text := display_all_text u;
     external_force := external_force u; additional_mass := v;
     gravities := gravities u; planet := planet u; gravity := gravity u |}.
Definition set_planet (v : string) (u : UserState) : UserState :=
  {| _show_mocap := _show_mocap u; _transparent := _transparent u;
     target_x := target_x u; target_y := target_y u; target_z := target_z u;
     reach_mode := reach_mode u; path_vis := path_vis u;
     custom_print := custom_print u; adapt := adapt u; gripper := gripper u;
     display_all_text := display_all_text u;
     external_force := external_force u;
     additional_mass := additional_mass u; gravities := gravities u;
     planet := v; gravity := gravity u |}.

Definition set_ctx (v : MjRenderContext) (o : Viewer) : Viewer :=
  {| ctx := v; vopt := vopt o; basic := basic o; _ncam := _ncam o;
     playback := playback o; capture := capture o; user := user o |}.
Definition set_vopt (v : PyMjvOption) (o : Viewer) : Viewer :=
  {| ctx := ctx o; vopt := v; basic := basic o; _ncam := _ncam o;
     playback := playback o; capture := capture o; user := user o |}.
Definition set_basic (v : BasicState) (o : Viewer) : Viewer :=
  {| ctx := ctx o; vopt := vopt o; basic := v; _ncam := _ncam o;
     playback := playback o; capture := capture o; user := user o |}.
Definition set_playback (v : PlaybackState) (o : Viewer) : Viewer :=
  {| ctx := ctx o; vopt := vopt o; basic := basic o; _ncam := _ncam o;
     playback := v; capture := capture o; user := user o |}.
Definition set_capture (v : CaptureState) (o : Viewer) : Viewer :=
  {| ctx := ctx o; vopt := vopt o; basic := basic o; _ncam := _ncam o;
     playback := playback o; capture := v; user := user o |}.
Definition set_user (v : UserState) (o : Viewer) : Viewer :=
  {| ctx := ctx o; vopt := vopt o; basic := basic o; _ncam := _ncam o;
     playback := playback o; capture := capture o; user := v |}.

Definition set_framebuffer_size (v : Z * Z) (g : GlfwWindow) : GlfwWindow :=
  {| framebuffer_size := v; window_size := window_size g;
     keys_down := keys_down g; buttons_down := buttons_down g;
     cursor_pos := cursor_pos g; should_close := should_close g;
     pending := pending g |}.
Definition set_keys_down (v : list Z) (g : GlfwWindow) : GlfwWindow :=
  {| framebuffer_size := framebuffer_size g; window_size := window_size g;
     keys_down := v; buttons_down := buttons_down g;
     cursor_pos := cursor_pos g; should_close := should_close g;
     pending := pending g |}.
Definition set_buttons_down (v : list Z) (g : GlfwWindow) : GlfwWindow :=
  {| framebuffer_size := framebuffer_size g; window_size := window_size g;
     keys_down := keys_down g; buttons_down := v; cursor_pos := cursor_pos g;
     should_close := should_close g; pending := pending g |}.
Definition set_cursor_pos (v : float * float) (g : GlfwWindow) : GlfwWindow :=
  {| framebuffer_size := framebuffer_size g; window_size := window_size g;
     keys_down := keys_down g; buttons_down := buttons_down g;
     cursor_pos := v; should_close := should_close g; pending := pending g |}.
Definition set_should_close (v : bool) (g : GlfwWindow) : GlfwWindow :=
  {| framebuffer_size := framebuffer_size g; window_size := window_size g;
     keys_down := keys_down g; buttons_down := buttons_down g;
     cursor_pos := cursor_pos g; should_close := v; pending := pending g |}.
Definition set_pending (v : list (list GlfwEvent)) (g : GlfwWindow) : GlfwWindow :=
  {| framebuffer_size := framebuffer_size g; window_size := window_size g;
     keys_down := keys_down g; buttons_down := buttons_down g;
     cursor_pos := cursor_pos g; should_close := should_close g;
     pending := v |}.

Definition set_viewer (v : Viewer) (w : World) : World :=
  {| viewer := v; sim := sim w; win := win w; now := now w; ticks := ticks w;
     videos := videos w; trace := trace w |}.
Definition set_sim (v : MjSim) (w : World) : World :=
  {| viewer := viewer w; sim := v; win := win w; now := now w;
     ticks := ticks w; videos := videos w; trace := trace w |}.
Definition set_win (v : GlfwWindow) (w : World) : World :=
  {| viewer := viewer w; sim := sim w; win := v; now := now w;
     ticks := ticks w; videos := videos w; trace := trace w |}.
Definition set_now (v : float) (w : World) : World :=
  {| viewer := viewer w; sim := sim w; win := win w; now := v;
     ticks := ticks w; videos := videos w; trace := trace w |}.
Definition set_ticks (v : list float) (w : World) : World :=
  {| viewer := viewer w; sim := sim w; win := win w; now := now w;
     ticks := v; videos := videos w; trace := trace w |}.
Definition set_videos (v : list Writer) (w : World) : World :=
  {| viewer := viewer w; sim := sim w; win := win w; now := now w;
     ticks := ticks w; videos := v; trace := trace w |}.
Definition set_trace (v : list Call) (w : World) : World :=
  {| viewer := viewer w; sim := sim w; win := win w; now := now w;
     ticks := ticks w; videos := videos w; trace := v |}.

(** ** The monad of methods

    A method runs from a [World] and returns normally, raises, or never
    returns ([Hang]: a loop that does not end, a [get] on a queue nobody
    feeds). *)

Inductive Outcome (A : Type) : Type :=
| Ok (a : A) (w : World)
| Raise (e : Py.Exn) (w : World)
| Hang.

Arguments Ok {A} a w.
Arguments Raise {A} e w.
Arguments Hang {A}.

Definition M (A : Type) : Type := World -> Outcome A.

Definition ret {A : Type} (a : A) : M A := fun w => Ok a w.

Definition bind {A B : Type} (m : M A) (k : A -> M B) : M B :=
  fun w =>
    match m w with
    | Ok a w' => k a w'
    | Raise e w' => Raise e w'
    | Hang => Hang
    end.

Definition raise {A : Type} (e : Py.Exn) : M A := fun w => Raise e w.

Definition hang {A : Type} : M A := fun _ => Hang.

Definition gets {A : Type} (f : World -> A) : M A := fun w => Ok (f w) w.

Definition modify (f : World -> World) : M unit := fun w => Ok tt (f w).

(** The value of an expression that may raise. *)
Definition lift {A : Type} (r : Py.Exn + A) : M A :=
  match r with
  | inl e => raise e
  | inr a => ret a
  end.

Declare Scope method_scope.
Delimit Scope method_scope with method.
Bind Scope method_scope with M.

Notation "'let*' x ':=' m 'in' k" := (bind m (fun x => k))
  (at level 10, x name, m at level 100, k at level 200) : method_scope.
Notation "'let*' ' p ':=' m 'in' k" := (bind m (fun x => match x with p => k end))
  (at level 10, p pattern, m at level 100, k at level 200) : method_scope.
Notation "m ;; k" := (bind m (fun _ => k))
  (at level 100, k at level 200, right associativity) : method_scope.

Open Scope method_scope.

(** [if c: body] with no [else]. *)
Definition when (c : bool) (body : M unit) : M unit :=
  if c then body else ret tt.

(** [for x in l: body x]. *)
Fixpoint for_each {A : Type} (l : list A) (body : A -> M unit) : M unit :=
  match l with
  | [] => ret tt
  | x :: rest => body x ;; for_each rest body
  end.

(** A call that leaves the program is appended to the trace. *)
Definition call (c : Call) : M unit :=
  modify (fun w => set_trace (trace w ++ [c]) w).

(** Updates of one part of the state. *)
Definition on_viewer (f : Viewer -> Viewer) (w : World) : World :=
  set_viewer (f (viewer w)) w.
Definition on_ctx (f : MjRenderContext -> MjRenderContext) : World -> World :=
  on_viewer (fun v => set_ctx (f (ctx v)) v).
Definition on_cam (f : PyMjvCamera -> PyMjvCamera) : World -> World :=
  on_ctx (fun c => set_cam (f (cam c)) c).
Definition on_vopt (f : PyMjvOption -> PyMjvOption) : World -> World :=
  on_viewer (fun v => set_vopt (f (vopt v)) v).
Definition on_basic (f : BasicState -> BasicState) : World -> World :=
  on_viewer (fun v => set_basic (f (basic v)) v).
Definition on_playback (f : PlaybackState -> PlaybackState) : World -> World :=
  on_viewer (fun v => set_playback (f (playback v)) v).
Definition on_capture (f : CaptureState -> CaptureState) : World -> World :=
  on_viewer (fun v => set_capture (f (capture v)) v).
Definition on_user (f : UserState -> UserState) : World -> World :=
  on_viewer (fun v => set_user (f (user v)) v).
Definition on_sim (f : MjSim -> MjSim) (w : World) : World :=
  set_sim (f (sim w)) w.
Definition on_win (f : GlfwWindow -> GlfwWindow) (w : World) : World :=
  set_win (f (win w)) w.

(** [time.time()]. *)
Definition time_time : M float :=
  fun w =>
    match ticks w with
    | [] => Ok (now w) w
    | t :: later => Ok t (set_now t (set_ticks later w))
    end.

(** ** GLFW

    The key, button and action codes, the window queries the viewer uses,
    and event delivery.  Keys stay integers because the viewer computes
    with them ([key - KEY_0], [290 <= key <= 301]). *)

Module glfw.
Definition RELEASE : Z := 0.
Definition PRESS : Z := 1.
Definition REPEAT : Z := 2.
Definition MOUSE_BUTTON_LEFT : Z := 0.
Definition MOUSE_BUTTON_RIGHT : Z := 1.
Definition KEY_SPACE : Z := 32.
Definition KEY_COMMA : Z := 44.
Definition KEY_PERIOD : Z := 46.
Definition KEY_SLASH : Z := 47.
Definition KEY_0 : Z := 48.
Definition KEY_1 : Z := 49.
Definition KEY_2 : Z := 50.
Definition KEY_3 : Z := 51.
Definition KEY_4 : Z := 52.
Definition KEY_SEMICOLON : Z := 59.
Definition KEY_A : Z := 65.
Definition KEY_B : Z := 66.
Definition KEY_C : Z := 67.
Definition KEY_D : Z := 68.
Definition KEY_E : Z := 69.
Definition KEY_F : Z := 70.
Definition KEY_G : Z := 71.
Definition KEY_H : Z := 72.
Definition KEY_I : Z := 73.
Definition KEY_J : Z := 74.
Definition KEY_K : Z := 75.
Definition KEY_L : Z := 76.
Definition KEY_M : Z := 77.
Definition KEY_N : Z := 78.
Definition KEY_O : Z := 79.
Definition KEY_P : Z := 80.
Definition KEY_Q : Z := 81.
Definition KEY_R : Z := 82.
Definition KEY_S : Z := 83.
Definition KEY_T : Z := 84.
Definition KEY_U : Z := 85.
Definition KEY_V : Z := 86.
Definition KEY_W : Z := 87.
Definition KEY_X : Z := 88.
Definition KEY_Y : Z := 89.
Definition KEY_Z : Z := 90.
Definition KEY_ESCAPE : Z := 256.
Definition KEY_TAB : Z := 258.
Definition KEY_RIGHT : Z := 262.
Definition KEY_LEFT_SHIFT : Z := 340.
Definition KEY_LEFT_CONTROL : Z := 341.
Definition KEY_RIGHT_SHIFT : Z := 344.

Definition get_key (window key : Z) : M Z :=
  gets (fun w => if bool_decide (key ∈ keys_down (win w)) then PRESS else RELEASE).

Definition get_mouse_button (window button : Z) : M Z :=
  gets (fun w =>
          if bool_decide (button ∈ buttons_down (win w)) then PRESS else RELEASE).

Definition get_cursor_pos (window : Z) : M (float * float) :=
  gets (fun w => cursor_pos (win w)).

Definition get_framebuffer_size (window : Z) : M (Z * Z) :=
  gets (fun w => framebuffer_size (win w)).

Definition get_window_size (window : Z) : M (Z * Z) :=
  gets (fun w => window_size (win w)).

Definition window_should_close (window : Z) : M bool :=
  gets (fun w => should_close (win w)).

(** The state a key or a button is reported in after an action on it. *)
Definition after_action (code act : Z) (down : list Z) : list Z :=
  if act =? PRESS then
    if bool_decide (code ∈ down) then down else code :: down
  else if act =? RELEASE then filter (fun k => k <> code) down
  else down.

(** What the window reports once an event has arrived. *)
Definition arrive (e : GlfwEvent) (g : GlfwWindow) : GlfwWindow :=
  match e with
  | CursorPos x y => set_cursor_pos (x, y) g
  | MouseButton button act _ =>
      set_buttons_down (after_action button act (buttons_down g)) g
  | Scroll _ _ => g
  | Key key _ act _ => set_keys_down (after_action key act (keys_down g)) g
  | FramebufferSize width height => set_framebuffer_size (width, height) g
  | Close => set_should_close true g
  end.

(** The callbacks a window has, as [MjViewerBasic.__init__] sets them. *)
Record Callbacks : Type := {
  cursor_pos_callback : Z -> float -> float -> M unit;
  mouse_button_callback : Z -> Z -> Z -> Z -> M unit;
  scroll_callback : Z -> float -> float -> M unit;
  key_callback : Z -> Z -> Z -> Z -> Z -> M unit }.

(** One event: the window takes note of it, then its callback runs.  An
    exception that the callback raises ends the delivery. *)
Definition dispatch (cb : Callbacks) (window : Z) (e : GlfwEvent) : M unit :=
  modify (on_win (arrive e)) ;;
  match e with
  | CursorPos x y => cursor_pos_callback cb window x y
  | MouseButton button act mods => mouse_button_callback cb window button act mods
  | Scroll x y => scroll_callback cb window x y
  | Key key scancode act mods => key_callback cb window key scancode act mods
  | FramebufferSize _ _ | Close => ret tt
  end.

(** [glfw.poll_events()]: the events that arrived since the last poll are
    delivered in order, each to its callback. *)
Definition poll_events (cb : Callbacks) (window : Z) : M unit :=
  let* batches := gets (fun w => pending (win w)) in
  match batches with
  | [] => ret tt
  | batch :: later =>
      modify (on_win (set_pending later)) ;;
      for_each batch (dispatch cb window)
  end.

End glfw.

(** ** What the viewer calls and this file does not define

    [cymj] (the compiled binding of MuJoCo) and [mujoco_py.utils] are not
    part of [mjviewer.py].  Their functions are taken as given: each acts
    on the part of the state its signature shows and nothing is assumed
    about its result.  Formatting a float as text and the float remainder
    belong to the Python runtime and are taken the same way.

    - [sim_render width height sim] is [MjSim.render] in its off-screen
      mode: it returns the off-screen context after the call (created
      when [sim] had none) and the image read back.
    - [move_camera sim action dx dy cam] is what
      [MjRenderContext.move_camera] leaves in [cam].
    - [add_overlay gridpos text1 text2 overlay] is what
      [MjRenderContext.add_overlay] leaves in [_overlay].
    - [rec_copy] reads a camera into a dictionary of its fields and
      [rec_assign] writes such a dictionary into a camera. *)

Class Cymj : Type := {
  CameraFields : Type;
  sim_render : Z -> Z -> MjSim -> MjRenderContext * Image;
  move_camera : MjSim -> mjtMouse -> float -> float -> PyMjvCamera -> PyMjvCamera;
  add_overlay :
    Z -> string -> string -> gmap Z (string * string) -> gmap Z (string * string);
  rec_copy : PyMjvCamera -> CameraFields;
  rec_assign : PyMjvCamera -> CameraFields -> PyMjvCamera;
  format_float : string -> float -> string;
  float_mod : float -> float -> float }.

(** [rec_assign] of a [rec_copy] writes every field of the copied camera:
    the one property of the helpers that restoring a camera relies on. *)
Definition CopyAssign (C : Cymj) : Prop :=
  forall dst src : PyMjvCamera, rec_assign dst (rec_copy src) = src.

(** ** [save_video]: the worker that encodes a recording

    The queue is read as the list of the items it will deliver.
    [queue.get()] on an empty queue waits for ever, so the loop has no
    result ([None]) when the items run out before a [None] sentinel. *)

Definition get_writer (filename : string) (fps : float) : Writer :=
  {| writer_filename := filename; writer_fps := fps;
     writer_frames := []; writer_closed := false |}.

Definition append_data (writer : Writer) (frame : Image) : Writer :=
  {| writer_filename := writer_filename writer; writer_fps := writer_fps writer;
     writer_frames := writer_frames writer ++ [frame];
     writer_closed := writer_closed writer |}.

Definition close (writer : Writer) : Writer :=
  {| writer_filename := writer_filename writer; writer_fps := writer_fps writer;
     writer_frames := writer_frames writer; writer_closed := true |}.

(** The [while True] loop: the writer when the loop breaks, and the items
    left on the queue. *)
Fixpoint save_video_loop (queue : list (option Image)) (writer : Writer)
  : option (Writer * list (option Image)) :=
  match queue with
  | [] => None
  | None :: rest => Some (writer, rest)
  | Some frame :: later => save_video_loop later (append_data writer frame)
  end.

Definition save_video (queue : list (option Image)) (filename : string)
  (fps : float) : option (Writer * list (option Image)) :=
  let writer := get_writer filename fps in
  match save_video_loop queue writer with
  | Some (writer, rest) => Some (close writer, rest)
  | None => None
  end.

(** ** class MjViewerBasic

    [with self._gui_lock:] brackets three calls into the context.  The
    methods here run in one thread, and none takes the lock while it
    holds it: the lock is free whenever it is asked for, and a bracket is
    the call inside it. *)

Module MjViewerBasic.
Section Methods.
Context {C : Cymj}.

(** [__init__]: the attributes the class adds to the window context it
    extends.  [handle] is the window the base class opened. *)
Definition __init__ (handle : Z) (g : GlfwWindow) : Py.Exn + BasicState :=
  let '(framebuffer_width, _) := framebuffer_size g in
  let '(window_width, _) := window_size g in
  match Py.float_of_int framebuffer_width, Py.float_of_int window_width with
  | inr fw, inr ww =>
      match Py.float_div (PrimFloat.mul fw 1%float) ww with
      | inr scale =>
          inr {| window := Some handle;
                 _button_left_pressed := false;
                 _button_right_pressed := false;
                 _last_mouse_x := 0;
                 _last_mouse_y := 0;
                 _scale := scale;
                 exit := false |}
      | inl e => inl e
      end
  | inl e, _ | _, inl e => inl e
  end.

(** [self.move_camera(action, dx, dy)], inherited from the context. *)
Definition self_move_camera (action : mjtMouse) (dx dy : float) : M unit :=
  call (CallMoveCamera action dx dy) ;;
  let* s := gets sim in
  modify (on_cam (move_camera s action dx dy)).

(** [super().render()] of the base class: the scene, the markers and the
    overlay of this context are drawn into the window. *)
Definition context_render : M unit :=
  let* c := gets (fun w => ctx (viewer w)) in
  call (CallWindowRender c).

Definition key_callback (window key scancode action mods : Z) : M unit :=
  when ((action =? glfw.RELEASE) && (key =? glfw.KEY_ESCAPE))
    (call (CallPrint "Pressed ESC") ;;
     modify (on_basic (set_exit true))).

Definition _cursor_pos_callback (window : Z) (xpos ypos : float) : M unit :=
  let* left := gets (fun w => _button_left_pressed (basic (viewer w))) in
  let* right := gets (fun w => _button_right_pressed (basic (viewer w))) in
  if negb (left || right) then ret tt
  else
    (* Determine whether to move, zoom or rotate view *)
    let* shift_l := glfw.get_key window glfw.KEY_LEFT_SHIFT in
    let* shift_r := glfw.get_key window glfw.KEY_RIGHT_SHIFT in
    let mod_shift := (shift_l =? glfw.PRESS) || (shift_r =? glfw.PRESS) in
    let action :=
      if right then (if mod_shift then MOUSE_MOVE_H else MOUSE_MOVE_V)
      else if left then (if mod_shift then MOUSE_ROTATE_H else MOUSE_ROTATE_V)
      else MOUSE_ZOOM in
    let* scale := gets (fun w => _scale (basic (viewer w))) in
    let* last_x := gets (fun w => _last_mouse_x (basic (viewer w))) in
    let* last_y := gets (fun w => _last_mouse_y (basic (viewer w))) in
    let* x := lift (Py.int_of_float (PrimFloat.mul scale xpos)) in
    let dx := x - last_x in
    let* y := lift (Py.int_of_float (PrimFloat.mul scale ypos)) in
    let dy := y - last_y in
    let* '(width, height) := glfw.get_framebuffer_size window in
    let* rel_x := lift (Py.int_truediv dx height) in
    let* rel_y := lift (Py.int_truediv dy height) in
    self_move_camera action rel_x rel_y ;;
    modify (on_basic (set__last_mouse_x x)) ;;
    modify (on_basic (set__last_mouse_y y)).

Definition _mouse_button_callback (window button act mods : Z) : M unit :=
  let* left := glfw.get_mouse_button window glfw.MOUSE_BUTTON_LEFT in
  modify (on_basic (set__button_left_pressed (left =? glfw.PRESS))) ;;
  let* right := glfw.get_mouse_button window glfw.MOUSE_BUTTON_RIGHT in
  modify (on_basic (set__button_right_pressed (right =? glfw.PRESS))) ;;
  let* '(x, y) := glfw.get_cursor_pos window in
  let* scale := gets (fun w => _scale (basic (viewer w))) in
  let* last_x := lift (Py.int_of_float (PrimFloat.mul scale x)) in
  modify (on_basic (set__last_mouse_x last_x)) ;;
  let* last_y := lift (Py.int_of_float (PrimFloat.mul scale y)) in
  modify (on_basic (set__last_mouse_y last_y)).

Definition _scroll_callback (window : Z) (x_offset y_offset : float) : M unit :=
  self_move_camera MOUSE_ZOOM 0%float (PrimFloat.mul (-0.05)%float y_offset).

(** The callbacks [__init__] registers.  [self.key_callback] is looked up
    on the object, so a subclass that overrides it is the one called: it
    is the argument here. *)
Definition callbacks (self_key_callback : Z -> Z -> Z -> Z -> Z -> M unit)
  : glfw.Callbacks :=
  {| glfw.cursor_pos_callback := _cursor_pos_callback;
     glfw.mouse_button_callback := _mouse_button_callback;
     glfw.scroll_callback := _scroll_callback;
     glfw.key_callback := self_key_callback |}.

(** Render the current simulation state to the screen. *)
Definition render (self_key_callback : Z -> Z -> Z -> Z -> Z -> M unit)
  : M unit :=
  let* window := gets (fun w => window (basic (viewer w))) in
  match window with
  | None => ret tt
  | Some handle =>
      let* closing := glfw.window_should_close handle in
      when closing (modify (on_basic (set_exit true))) ;;
      context_render ;;
      glfw.poll_events (callbacks self_key_callback) handle
  end.

End Methods.
End MjViewerBasic.

(** ** class MjViewer *)

Module MjViewer.
Section Methods.
Context {C : Cymj}.

(** The attributes [__init__] sets, once the base classes have run:
    [base] and [options] are what the compiled window context starts
    with, [b] what [MjViewerBasic.__init__] added. *)
Definition attributes (s : MjSim) (display_all_text : bool)
  (base : MjRenderContext) (options : PyMjvOption) (b : BasicState) : Viewer :=
  let earth := [0; 0; -9.81]%float in
  {| ctx := base;
     vopt := options;
     basic := b;
     _ncam := ncam (model s);
     playback :=
       {| _paused := Some false;
          _advance_by_one_step := false;
          _run_speed := 1%float;
          _loop_count := 0%float;
          _render_every_frame := false;
          _time_per_render := (1 / 60)%float;
          _hide_overlay := false;
          _user_overlay := ∅ |};
     capture :=
       {| _record_video := false;
          _video_queue := [];
          _video_idx := 0;
          _video_path := "/tmp/video_%07d.mp4";
          _video_process := None;
          _image_idx := 0;
          _image_path := "/tmp/frame_%07d.png" |};
     user :=
       {| _show_mocap := true;
          _transparent := false;
          target_x := 0;
          target_y := 0;
          target_z := 0;
          reach_mode := "reach_target";
          path_vis := false;
          custom_print := "";
          adapt := false;
          gripper := 1;
          display_all_text := display_all_text;
          external_force := 0;
          additional_mass := 0;
          gravities :=
            [("earth", earth); ("moon", [0; 0; -1.62]);
             ("mars", [0; 0; -3.71]); ("jupiter", [0; 0; -24.92]);
             ("ISS", [0; 0; 0])]%float;
          planet := "earth";
          gravity := earth |} |}.

Definition __init__ (s : MjSim) (display_all_text : bool)
  (base : MjRenderContext) (options : PyMjvOption) (handle : Z) (g : GlfwWindow)
  : Py.Exn + Viewer :=
  match MjViewerBasic.__init__ handle g with
  | inl e => inl e
  | inr b => inr (attributes s display_all_text base options b)
  end.

(** *** [_read_pixels_as_in_window] *)

(** [self.sim._render_context_window]: the context and the framebuffer of
    its window. *)
Definition window_context (w : World) : MjRenderContext :=
  match _render_context_window (sim w) with
  | ThisViewer => ctx (viewer w)
  | EarlierWindow c _ => c
  end.

Definition window_framebuffer_size : M (Z * Z) :=
  let* r := gets (fun w => _render_context_window (sim w)) in
  match r with
  | ThisViewer =>
      let* window := gets (fun w => window (basic (viewer w))) in
      match window with
      | Some handle => glfw.get_framebuffer_size handle
      | None => raise Py.TypeError
      end
  | EarlierWindow _ size => ret size
  end.

(** A value stored in an [np.int32]. *)
Definition int32 (n : Z) : Z := (n + 2 ^ 31) mod 2 ^ 32 - 2 ^ 31.

(** [astype(np.int32)] on a float: the C conversion, which truncates (and
    gives the least int32 where the value has no integer part to keep). *)
Definition float_to_int32 (x : float) : Z :=
  match Py.int_of_float x with
  | inr n => int32 n
  | inl _ => - 2 ^ 31
  end.

(** The resolution of the picture: the window's, scaled down so that its
    smaller side is at most 1000, each side then cut to a multiple of 16.
    [1000 / np.min(resolution)] is numpy's division (an infinity on a zero
    side); [min(ratio, 1)] is the int [1] when the ratio is above it, and
    the array then stays an integer one. *)
Definition limit_resolution (resolution : Z * Z) : Z * Z :=
  let '(width, height) := resolution in
  let ratio := PrimFloat.div 1000%float (Py.to_float (Z.min width height)) in
  let '(width, height) :=
    if PrimFloat.ltb 1%float ratio then (int32 width, int32 height)
    else (float_to_int32 (PrimFloat.mul (Py.to_float width) ratio),
          float_to_int32 (PrimFloat.mul (Py.to_float height) ratio)) in
  (int32 (width - width mod 16), int32 (height - height mod 16)).

(** [self.sim.render(width, height)]: the off-screen context renders (it
    is created on the first call). *)
Definition sim_render_offscreen (width height : Z) : M Image :=
  call (CallSimRender width height) ;;
  let* s := gets sim in
  let '(c, img) := sim_render width height s in
  modify (on_sim (set__render_context_offscreen (Some c))) ;;
  ret img.

(** An update of the object [offscreen_ctx] refers to. *)
Definition on_offscreen (f : MjRenderContext -> MjRenderContext)
  : World -> World :=
  on_sim (fun s =>
            set__render_context_offscreen (f <$> _render_context_offscreen s) s).

(** Reads pixels with markers and overlay from the same camera as screen. *)
Definition _read_pixels_as_in_window (resolution : option (Z * Z)) : M Image :=
  let* resolution :=
    match resolution with
    | None => window_framebuffer_size
    | Some r => ret r
    end in
  let '(width, height) := limit_resolution resolution in
  let* existing := gets (fun w => _render_context_offscreen (sim w)) in
  when (bool_decide (existing = None))
    (let* _ := sim_render_offscreen width height in ret tt) ;;
  let* offscreen := gets (fun w => _render_context_offscreen (sim w)) in
  match offscreen with
  | None => raise Py.AttributeError
  | Some offscreen_ctx =>
      let* window_ctx := gets window_context in
      (* Save markers and overlay from offscreen. *)
      let saved := (_markers offscreen_ctx, _overlay offscreen_ctx,
                    rec_copy (cam offscreen_ctx)) in
      (* Copy markers and overlay from window. *)
      modify (on_offscreen (set__markers (_markers window_ctx))) ;;
      modify (on_offscreen (set__overlay ∅)) ;;
      modify (on_offscreen
                (fun c => set__overlay (_overlay window_ctx ∪ _overlay c) c)) ;;
      modify (on_offscreen
                (fun c => set_cam (rec_assign (cam c) (rec_copy (cam window_ctx))) c)) ;;
      let* img := sim_render_offscreen width height in
      let img := rev img in (* Rendered images are upside-down. *)
      (* Restore markers and overlay to offscreen. *)
      modify (on_offscreen (set__markers saved.1.1)) ;;
      modify (on_offscreen (set__overlay ∅)) ;;
      modify (on_offscreen (fun c => set__overlay (saved.1.2 ∪ _overlay c) c)) ;;
      modify (on_offscreen (fun c => set_cam (rec_assign (cam c) saved.2) c)) ;;
      ret img
  end.

(** *** [_create_full_overlay] *)

(** [self.add_overlay(gridpos, text1, text2)], inherited from the context. *)
Definition self_add_overlay (gridpos : Z) (text1 text2 : string) : M unit :=
  modify (on_ctx (fun c => set__overlay (add_overlay gridpos text1 text2 (_overlay c)) c)).

(** [template % n] for an int [n]. *)
Definition format (template : string) (n : Z) : M string :=
  match Py.format_int template n with
  | Some text => ret text
  | None => raise Py.ValueError
  end.

Definition on_off (b : bool) : string := if b then "On" else "Off".
Definition off_on (b : bool) : string := if b then "Off" else "On".

(** The texts of the key bindings added for the robot controls. *)
Definition custom_keys : list (string * string) :=
  [("Toggle adaptation", "[LEFT SHIFT]");
   ("Move target - X", "[o]");
   ("Move target + X", "[p]");
   ("Move target - Y", "[l]");
   ("Move target + Y", "[;]");
   ("Move target - Z", "[.]");
   ("Move target + Z", "[/]");
   ("Follow target", "[a]");
   ("Pick up object", "[z]");
   ("Drop off up object", "[x]");
   ("Toggle path vis", "[w]");
   ("Increase gravity", "[g]");
   ("Decrease gravity", "[b]");
   ("Dumbbell mass +1kg", "[u]");
   ("Dumbbell mass -1kg", "[y]");
   ("Earth Gravity", "[q]");
   ("Moon Gravity", "[i]");
   ("Mars Gravity", "[k]");
   ("Jupiter Gravity", "[,]");
   ("ISS Gravity", "[qj")]%string.

Definition _create_full_overlay : M unit :=
  let* v := gets viewer in
  let p := playback v in
  let c := capture v in
  let u := user v in
  when (display_all_text u)
    ((if _render_every_frame p then self_add_overlay GRID_TOPLEFT "" ""
      else self_add_overlay GRID_TOPLEFT
             (format_float "Run speed = %.3f x real time" (_run_speed p))
             "[S]lower, [F]aster") ;;
     self_add_overlay GRID_TOPLEFT "Ren[d]er every frame"
       (off_on (_render_every_frame p)) ;;
     let* cams := format "Switch camera (#cams = %d)" (_ncam v + 1) in
     let* camid := format "[Tab] (camera ID = %d)" (fixedcamid (cam (ctx v))) in
     self_add_overlay GRID_TOPLEFT cams camid ;;
     let* contact := lift (Py.getitem (flags (vopt v)) 10) in
     self_add_overlay GRID_TOPLEFT "[C]ontact forces" (off_on (contact =? 1)) ;;
     self_add_overlay GRID_TOPLEFT "Referenc[e] frames"
       (off_on (frame (vopt v) =? 1)) ;;
     self_add_overlay GRID_TOPLEFT "T[r]ansparent" (on_off (_transparent u)) ;;
     self_add_overlay GRID_TOPLEFT "Display [M]ocap bodies" (on_off (_show_mocap u)) ;;
     match _paused p with
     | Some paused =>
         (if negb paused then self_add_overlay GRID_TOPLEFT "Stop" "[Space]"
          else self_add_overlay GRID_TOPLEFT "Start" "[Space]") ;;
         self_add_overlay GRID_TOPLEFT "Advance simulation by one step"
           "[right arrow]"
     | None => ret tt
     end ;;
     self_add_overlay GRID_TOPLEFT "[H]ide Menu" "" ;;
     (if _record_video c then
        let* t := time_time in
        let* ndots :=
          lift (Py.int_of_float (PrimFloat.mul 7%float (float_mod t 1%float))) in
        let dots := (Py.str_repeat "." ndots ++ Py.str_repeat " " (6 - ndots))%string in
        self_add_overlay GRID_TOPLEFT ("Record [V]ideo (On) " ++ dots)%string ""
      else self_add_overlay GRID_TOPLEFT "Record [V]ideo (Off) " "") ;;
     when (0 <? _video_idx c)
       (let* fname := format (_video_path c) (_video_idx c - 1) in
        self_add_overlay GRID_TOPLEFT ("   saved as " ++ fname)%string "") ;;
     self_add_overlay GRID_TOPLEFT "Cap[t]ure frame" "" ;;
     when (0 <? _image_idx c)
       (let* fname := format (_image_path c) (_image_idx c - 1) in
        self_add_overlay GRID_TOPLEFT ("   saved as " ++ fname)%string "") ;;
     self_add_overlay GRID_TOPLEFT "Start [i]pdb" "" ;;
     let extra :=
       if _record_video c then " (while video is not recorded)"%string
       else ""%string in
     let* fps := lift (Py.float_div 1%float (_time_per_render p)) in
     let* fps := lift (Py.int_of_float fps) in
     self_add_overlay GRID_BOTTOMLEFT "FPS" (Py.str_of_int fps ++ extra)%string ;;
     let* s := gets sim in
     self_add_overlay GRID_BOTTOMLEFT "Solver iterations"
       (Py.str_of_int (data_solver_iter s + 1)) ;;
     let* steps := lift (Py.float_div (data_time s) (opt_timestep (model s))) in
     let* step := lift (Py.round_float steps) in
     self_add_overlay GRID_BOTTOMRIGHT "Step" (Py.str_of_int step) ;;
     self_add_overlay GRID_BOTTOMRIGHT "timestep"
       (format_float "%.5f" (opt_timestep (model s))) ;;
     self_add_overlay GRID_BOTTOMRIGHT "n_substeps" (Py.str_of_int (nsubsteps s)) ;;
     self_add_overlay GRID_TOPLEFT "Toggle geomgroup visibility" "0-4") ;;
  (* CUSTOM KEYS *)
  for_each custom_keys (fun '(text1, text2) => self_add_overlay GRID_TOPLEFT text1 text2) ;;
  self_add_overlay GRID_TOPRIGHT ("Adaptation: " ++ Py.str_of_bool (adapt u))%string "" ;;
  self_add_overlay GRID_TOPRIGHT (reach_mode u) "" ;;
  self_add_overlay GRID_TOPRIGHT (custom_print u) "".

(** *** [key_callback] *)

(** [vopt.flags[i] = vopt.flags[j] = not vopt.flags[k]]: the value is
    computed once and stored left to right (a byte holds [True] as 1). *)
Definition flip_flags (k i j : Z) : M unit :=
  let* fl := gets (fun w => flags (vopt (viewer w))) in
  let* current := lift (Py.getitem fl k) in
  let value := if current =? 0 then 1 else 0 in
  let* fl := lift (Py.setitem fl i value) in
  modify (on_vopt (set_flags fl)) ;;
  let* fl := lift (Py.setitem fl j value) in
  modify (on_vopt (set_flags fl)).

(** [geom_rgba[:, 3] = f(geom_rgba[:, 3])]. *)
Definition scale_alpha (f : float32 -> float32) : M unit :=
  modify (on_sim (fun s =>
    set_model (set_geom_rgba (alter f 3%nat <$> geom_rgba (model s)) (model s)) s)).

Definition get_alpha (geom_idx : Z) : M float32 :=
  let* rgba := gets (fun w => geom_rgba (model (sim w))) in
  let* row := lift (Py.getitem rgba geom_idx) in
  lift (Py.getitem row 3).

Definition set_alpha (geom_idx : Z) (value : float32) : M unit :=
  let* rgba := gets (fun w => geom_rgba (model (sim w))) in
  let* row := lift (Py.getitem rgba geom_idx) in
  let* row := lift (Py.setitem row 3 value) in
  let* rgba := lift (Py.setitem rgba geom_idx row) in
  modify (on_sim (fun s => set_model (set_geom_rgba rgba (model s)) s)).

(** Shows / hides mocap bodies: the two nested loops of the [M] key. *)
Definition show_hide_mocap : M unit :=
  let* m := gets (fun w => model (sim w)) in
  for_each (Py.enumerate (body_mocapid m)) (fun '(body_idx1, val) =>
    when (negb (val =? -1))
      (for_each (Py.enumerate (geom_bodyid m)) (fun '(geom_idx, body_idx2) =>
         when (body_idx1 =? body_idx2)
           (let* shown := gets (fun w => _show_mocap (user (viewer w))) in
            if negb shown then
              (* Store transparency for later to show it. *)
              let* alpha := get_alpha geom_idx in
              modify (on_sim (fun s => set_extras (<[geom_idx := alpha]> (extras s)) s)) ;;
              set_alpha geom_idx f32_zero
            else
              let* stored := gets (fun w => extras (sim w) !! geom_idx) in
              match stored with
              | Some alpha => set_alpha geom_idx alpha
              | None => raise Py.KeyError
              end)))).

(** [Process(target=save_video, args=(queue, filename, fps))] and
    [start()].  The attribute is rebound: a worker it referred to before
    is no longer followed. *)
Definition start_video_process (filename : string) (fps : float) : M unit :=
  modify (on_capture (set__video_process
    (Some {| process_filename := filename; process_fps := fps;
             process_running := true |}))) ;;
  call (CallProcessStart filename fps).

(** [self._video_queue.put(item)]. *)
Definition video_queue_put (item : option Image) : M unit :=
  modify (on_capture (fun c => set__video_queue (_video_queue c ++ [item]) c)).

(** [self._video_process.join()].  The worker runs beside the viewer and
    all it does is fixed by the items of the queue, in their order; its
    run of [save_video] is accounted for here, where the viewer waits for
    it.  A worker that has ended already is not waited for; one that
    finds no sentinel never ends. *)
Definition join_video_process : M unit :=
  let* process := gets (fun w => _video_process (capture (viewer w))) in
  match process with
  | None => raise Py.AttributeError
  | Some p =>
      call (CallProcessJoin (process_filename p)) ;;
      when (process_running p)
        (let* queue := gets (fun w => _video_queue (capture (viewer w))) in
         match save_video queue (process_filename p) (process_fps p) with
         | None => hang
         | Some (written, rest) =>
             modify (on_capture (set__video_queue rest)) ;;
             modify (fun w => set_videos (videos w ++ [written]) w) ;;
             modify (on_capture (set__video_process
                                   (Some (set_process_running false p))))
         end)
  end.

(** The branch of the [V] key (and of [ESC] while recording). *)
Definition toggle_video : M unit :=
  modify (on_capture (fun c => set__record_video (negb (_record_video c)) c)) ;;
  let* recording := gets (fun w => _record_video (capture (viewer w))) in
  when recording
    (let* per_render := gets (fun w => _time_per_render (playback (viewer w))) in
     let* fps := lift (Py.float_div 1%float per_render) in
     let* path := gets (fun w => _video_path (capture (viewer w))) in
     let* idx := gets (fun w => _video_idx (capture (viewer w))) in
     let* filename := format path idx in
     start_video_process filename fps) ;;
  let* recording := gets (fun w => _record_video (capture (viewer w))) in
  when (negb recording)
    (video_queue_put None ;;
     join_video_process ;;
     modify (on_capture (fun c => set__video_idx (_video_idx c + 1) c))).

(** The branch of the [T] key: capture screenshot. *)
Definition capture_screenshot : M unit :=
  let* img := _read_pixels_as_in_window None in
  let* path := gets (fun w => _image_path (capture (viewer w))) in
  let* idx := gets (fun w => _image_idx (capture (viewer w))) in
  let* filename := format path idx in
  call (CallImwrite filename img) ;;
  modify (on_capture (fun c => set__image_idx (_image_idx c + 1) c)).

(** The branch of the [TAB] key: switches cameras. *)
Definition switch_camera : M unit :=
  modify (on_cam (fun c => set_fixedcamid (fixedcamid c + 1) c)) ;;
  modify (on_cam (set_type CAMERA_FIXED)) ;;
  let* camid := gets (fun w => fixedcamid (cam (ctx (viewer w)))) in
  let* cams := gets (fun w => _ncam (viewer w)) in
  when (cams <=? camid)
    (modify (on_cam (set_fixedcamid (-1))) ;;
     modify (on_cam (set_type CAMERA_FREE))).

(** The keys that move the target, which both the press and the release
    part of [key_callback] end with; [otherwise] is the rest of the
    [elif] chain. *)
Definition move_target (key : Z) (otherwise : M unit) : M unit :=
  if key =? glfw.KEY_O then modify (on_user (set_target_x (-1)))
  else if key =? glfw.KEY_P then modify (on_user (set_target_x 1))
  else if key =? glfw.KEY_L then modify (on_user (set_target_y (-1)))
  else if key =? glfw.KEY_SEMICOLON then modify (on_user (set_target_y 1))
  else if key =? glfw.KEY_PERIOD then modify (on_user (set_target_z (-1)))
  else if key =? glfw.KEY_SLASH then modify (on_user (set_target_z 1))
  else otherwise.

(** The keys after the target keys in the release part. *)
Definition robot_command (key : Z) : M unit :=
  if key =? glfw.KEY_A then modify (on_user (set_reach_mode "reach_target"))
  else if key =? glfw.KEY_Z then modify (on_user (set_reach_mode "pick_up"))
  else if key =? glfw.KEY_X then modify (on_user (set_reach_mode "drop_off"))
  else if key =? glfw.KEY_W then
    modify (on_user (fun u => set_path_vis (negb (path_vis u)) u))
  else if key =? glfw.KEY_LEFT_SHIFT then
    modify (on_user (fun u => set_adapt (negb (adapt u)) u))
  else if key =? glfw.KEY_N then
    modify (on_user (fun u => set_gripper (gripper u * -1) u))
  else if key =? glfw.KEY_G then
    modify (on_user (fun u => set_external_force (external_force u + 1) u))
  else if key =? glfw.KEY_B then
    modify (on_user (fun u => set_external_force (external_force u - 1) u))
  else if key =? glfw.KEY_U then modify (on_user (set_additional_mass 1))
  else if key =? glfw.KEY_Y then modify (on_user (set_additional_mass (-1)))
  else if key =? glfw.KEY_Q then modify (on_user (set_planet "earth"))
  else if key =? glfw.KEY_K then modify (on_user (set_planet "mars"))
  else if key =? glfw.KEY_COMMA then modify (on_user (set_planet "jupiter"))
  else if key =? glfw.KEY_I then modify (on_user (set_planet "moon"))
  else if key =? glfw.KEY_J then modify (on_user (set_planet "ISS"))
  else ret tt.

(** The release part of [key_callback]: one [if]/[elif] chain. *)
Definition on_release (window key : Z) : M unit :=
  let* paused := gets (fun w => _paused (playback (viewer w))) in
  let* recording := gets (fun w => _record_video (capture (viewer w))) in
  let* control := glfw.get_key window glfw.KEY_LEFT_CONTROL in
  if key =? glfw.KEY_TAB then switch_camera
  else if key =? glfw.KEY_H then (* hides all overlay. *)
    modify (on_playback (fun p => set__hide_overlay (negb (_hide_overlay p)) p))
  else if (key =? glfw.KEY_SPACE) && bool_decide (paused <> None) then
    (* stops simulation. *)
    modify (on_playback (set__paused (Some (Py.not_ paused))))
  else if (key =? glfw.KEY_RIGHT) && bool_decide (paused <> None) then
    (* Advances simulation by one step. *)
    modify (on_playback (set__advance_by_one_step true)) ;;
    modify (on_playback (set__paused (Some true)))
  else if (key =? glfw.KEY_V) || ((key =? glfw.KEY_ESCAPE) && recording) then
    toggle_video
  else if key =? glfw.KEY_T then capture_screenshot
  else if key =? glfw.KEY_S then (* Slows down simulation. *)
    modify (on_playback (fun p => set__run_speed (_run_speed p / 2)%float p))
  else if key =? glfw.KEY_F then (* Speeds up simulation. *)
    modify (on_playback (fun p => set__run_speed (_run_speed p * 2)%float p))
  else if key =? glfw.KEY_C then (* Displays contact forces. *)
    flip_flags 10 10 11
  else if key =? glfw.KEY_D then
    modify (on_playback
              (fun p => set__render_every_frame (negb (_render_every_frame p)) p))
  else if key =? glfw.KEY_E then
    modify (on_vopt (fun o => set_frame (1 - frame o) o))
  else if key =? glfw.KEY_R then (* makes everything little bit transparent. *)
    modify (on_user (fun u => set__transparent (negb (_transparent u)) u)) ;;
    let* transparent := gets (fun w => _transparent (user (viewer w))) in
    if transparent then scale_alpha (fun a => f32_div a f32_five)
    else scale_alpha (fun a => f32_mul a f32_five)
  else if key =? glfw.KEY_M then
    modify (on_user (fun u => set__show_mocap (negb (_show_mocap u)) u)) ;;
    show_hide_mocap
  else if bool_decide (key ∈ [glfw.KEY_0; glfw.KEY_1; glfw.KEY_2; glfw.KEY_3;
                               glfw.KEY_4]) then
    let* groups := gets (fun w => geomgroup (vopt (viewer w))) in
    let* current := lift (Py.getitem groups (key - glfw.KEY_0)) in
    let* groups := lift (Py.setitem groups (key - glfw.KEY_0) (Z.lxor current 1)) in
    modify (on_vopt (set_geomgroup groups))
  else if negb (control =? 0) && ((290 <=? key) && (key <=? 301)) then
    (* index into the last 12 elements of mjtVisFrame *)
    let keynum := Z.min (key - 290 + 12) 21 in
    flip_flags keynum keynum keynum
  else if (290 <=? key) && (key <=? 301) then
    (* index into the first 12 elements of mjtVisFrame *)
    let keynum := key - 290 in
    flip_flags keynum keynum keynum
  else move_target key (robot_command key).

Definition key_callback (window key scancode action mods : Z) : M unit :=
  if negb (action =? glfw.RELEASE) then
    (* on button press (for button holding) *)
    move_target key (ret tt) ;;
    MjViewerBasic.key_callback window key scancode action mods
  else
    (* on button release (click) *)
    on_release window key ;;
    MjViewerBasic.key_callback window key scancode action mods.

(** *** [render] *)

(** The nested function [render_inner_loop] of [render]: one frame. *)
Definition render_inner_loop : M unit :=
  let* render_start := time_time in
  modify (on_ctx (set__overlay ∅)) ;;
  let* hidden := gets (fun w => _hide_overlay (playback (viewer w))) in
  when (negb hidden)
    (let* texts := gets (fun w => _user_overlay (playback (viewer w))) in
     modify (on_ctx (fun c => set__overlay (texts ∪ _overlay c) c)) ;;
     _create_full_overlay) ;;
  MjViewerBasic.render key_callback ;;
  let* recording := gets (fun w => _record_video (capture (viewer w))) in
  if recording then
    let* frame := _read_pixels_as_in_window None in
    video_queue_put (Some frame)
  else
    let* t := time_time in
    modify (on_playback (fun p =>
      set__time_per_render
        (0.9 * _time_per_render p + 0.1 * (t - render_start))%float p)).

(** [while self._paused: ...]: the same frame is rendered while paused,
    once when a single step was asked for.  [fuel] bounds the number of
    passes: the loop itself has no bound. *)
Fixpoint paused_loop (fuel : nat) : M unit :=
  match fuel with
  | O => hang
  | S fuel =>
      let* paused := gets (fun w => _paused (playback (viewer w))) in
      if Py.truthy paused then
        render_inner_loop ;;
        let* advance := gets (fun w => _advance_by_one_step (playback (viewer w))) in
        if advance then
          modify (on_playback (set__advance_by_one_step false)) (* break *)
        else paused_loop fuel
      else ret tt
  end.

(** [while self._loop_count > 0: ...]. *)
Fixpoint counted_loop (fuel : nat) : M unit :=
  match fuel with
  | O => hang
  | S fuel =>
      let* count := gets (fun w => _loop_count (playback (viewer w))) in
      if PrimFloat.ltb 0%float count then
        render_inner_loop ;;
        modify (on_playback (fun p => set__loop_count (_loop_count p - 1)%float p)) ;;
        counted_loop fuel
      else ret tt
  end.

(** Render the current simulation state to the screen or off-screen
    buffer. *)
Definition render (fuel : nat) : M unit :=
  modify (fun w => on_playback (set__user_overlay (_overlay (ctx (viewer w)))) w) ;;
  let* paused := gets (fun w => _paused (playback (viewer w))) in
  (* Render the same frame if paused. *)
  (if Py.truthy paused then paused_loop fuel
   else
     let* s := gets sim in
     let* p := gets (fun w => playback (viewer w)) in
     let* substeps := lift (Py.float_of_int (nsubsteps s)) in
     let* frames :=
       lift (Py.float_div (opt_timestep (model s) * substeps)%float
               (_time_per_render p * _run_speed p)%float) in
     modify (on_playback (set__loop_count (_loop_count p + frames)%float)) ;;
     when (_render_every_frame p) (modify (on_playback (set__loop_count 1%float))) ;;
     counted_loop fuel) ;;
  (* Markers and overlay are regenerated in every pass. *)
  modify (on_ctx (set__markers [])) ;;
  modify (on_ctx (set__overlay ∅)).

End Methods.
End MjViewer.

(** ** The vocabulary of the properties

    What the statements below say about a world, and the judgement used
    to carry an invariant through a method. *)

(** [hoare P m Q E]: from a world in [P], the method [m] does not hang; it
    leaves a world in [Q] when it returns and one in [E] when it raises.
    [preserves P m] is the case of an invariant. *)
Definition hoare {A : Type} (P : World -> Prop) (m : M A) (Q E : World -> Prop)
  : Prop :=
  forall w, P w ->
    match m w with
    | Ok _ w' => Q w'
    | Raise _ w' => E w'
    | Hang => False
    end.

Definition preserves {A : Type} (P : World -> Prop) (m : M A) : Prop :=
  hoare P m P P.

(** *** The mouse *)

(** The action the specification gives for a drag: which button, and
    whether a shift key is held. *)
Definition drag_action (right shift : bool) : mjtMouse :=
  if right then (if shift then MOUSE_MOVE_H else MOUSE_MOVE_V)
  else (if shift then MOUSE_ROTATE_H else MOUSE_ROTATE_V).

(** A shift key is down in the window. *)
Definition shift_held (w : World) : bool :=
  bool_decide (glfw.KEY_LEFT_SHIFT ∈ keys_down (win w))
  || bool_decide (glfw.KEY_RIGHT_SHIFT ∈ keys_down (win w)).

(** *** The two render contexts *)

(** Two contexts agree on what [_read_pixels_as_in_window] borrows. *)
Definition same_context_state (before after : MjRenderContext) : Prop :=
  _markers after = _markers before
  /\ _overlay after = _overlay before
  /\ cam after = cam before.

(** The window whose size gives the resolution exists: the viewer's own
    window is open, or the window context is an earlier one. *)
Definition window_available (w : World) : Prop :=
  match _render_context_window (sim w) with
  | ThisViewer => is_Some (window (basic (viewer w)))
  | EarlierWindow _ _ => True
  end.

(** *** Recording *)

(** A recording is on. *)
Definition recording (w : World) : bool := _record_video (capture (viewer w)).

(** What the next toggle of the recording needs in order not to raise: a
    worker to join when a recording is on, and otherwise a frame rate and
    a file name that can be computed. *)
Definition video_ready (w : World) : Prop :=
  let c := capture (viewer w) in
  if _record_video c
  then exists p, _video_process c = Some p /\ process_running p = true
  else Py.is_zero (_time_per_render (playback (viewer w))) = false
       /\ is_Some (Py.format_int (_video_path c) (_video_idx c)).

(** The recording was switched on between [w] and [w']. *)
Definition recording_started (w w' : World) : Prop :=
  let c := capture (viewer w) in
  let c' := capture (viewer w') in
  exists filename,
    Py.format_int (_video_path c) (_video_idx c) = Some filename
    /\ _video_process c'
       = Some {| process_filename := filename;
                 process_fps := (1 / _time_per_render (playback (viewer w)))%float;
                 process_running := true |}
    /\ trace w'
       = trace w ++ [CallProcessStart filename
                       (1 / _time_per_render (playback (viewer w)))%float]
    /\ _video_idx c' = _video_idx c
    /\ _video_queue c' = _video_queue c.

(** The recording was switched off between [w] and [w'] by [key]: the
    worker has run on the queue with the sentinel at its end. *)
Definition recording_stopped (key : Z) (w w' : World) : Prop :=
  let c := capture (viewer w) in
  let c' := capture (viewer w') in
  exists p written rest,
    _video_process c = Some p
    /\ save_video (_video_queue c ++ [None]) (process_filename p) (process_fps p)
       = Some (written, rest)
    /\ _video_queue c' = rest
    /\ videos w' = videos w ++ [written]
    /\ _video_process c' = Some (set_process_running false p)
    /\ trace w'
       = trace w ++ CallProcessJoin (process_filename p)
                    :: (if key =? glfw.KEY_ESCAPE then [CallPrint "Pressed ESC"]
                        else [])
    /\ _video_idx c' = _video_idx c + 1.

(** *** The camera *)

(** The camera index is [-1] (the free camera) or that of a camera of the
    model. *)
Definition camera_index_ok (w : World) : Prop :=
  -1 <= fixedcamid (cam (ctx (viewer w))) < ncam (model (sim w)).

(** The camera type that goes with the index. *)
Definition camera_kind_ok (w : World) : Prop :=
  type (cam (ctx (viewer w)))
  = if fixedcamid (cam (ctx (viewer w))) =? -1 then CAMERA_FREE else CAMERA_FIXED.

(** *** The render loop *)

(** The event is a release of the space key, whose callback toggles
    [_paused]. *)
Definition toggles_pause (e : GlfwEvent) : bool :=
  match e with
  | Key key _ action _ => (key =? glfw.KEY_SPACE) && (action =? glfw.RELEASE)
  | _ => false
  end.

(** The events that the next [render] pass of the viewer gets from its
    poll (none when the viewer has no window: it does not poll). *)
Definition next_events (w : World) : list GlfwEvent :=
  match window (basic (viewer w)) with
  | Some _ => hd [] (pending (win w))
  | None => []
  end.

(** [_paused] is [True]. *)
Definition paused_now (w : World) : Prop :=
  _paused (playback (viewer w)) = Some true.

(** The state in which a pass reaches its poll: paused, with the window
    and its pending events as they were. *)
Definition before_poll (w0 w : World) : Prop :=
  paused_now w /\ win w = win w0
  /\ window (basic (viewer w)) = window (basic (viewer w0)).

(** One pass of [render] while paused with a single step asked for. *)
Definition single_step_pass {C : Cymj} : M unit :=
  modify (fun w => on_playback (set__user_overlay (_overlay (ctx (viewer w)))) w) ;;
  MjViewer.render_inner_loop ;;
  modify (on_playback (set__advance_by_one_step false)) ;;
  modify (on_ctx (set__markers [])) ;;
  modify (on_ctx (set__overlay ∅)).

(** *** The playback speed *)

(** 2.0, as the pair of its mantissa and exponent. *)
Definition sf_two : spec_float := S754_finite false 4503599627370496 (-51).

(** The half of [x] is a binary64 number: [x] is not finite, or lies
    above the least binade, or has an even mantissa. *)
Definition halves_exactly (x : float) : bool :=
  match Prim2SF x with
  | S754_finite _ m e => (-1074 <? e) || Z.even (Z.pos m)
  | _ => true
  end.

(** 2^-1021: from here on every number has an exact half. *)
Definition least_exact : float := Eval vm_compute in Z.ldexp 1 (-1021).

(** The least positive binary64 number, 2^-1074: its half rounds to 0. *)
Definition least_speed : float := Eval vm_compute in Z.ldexp 1 (-1074).

(** ** A world to run the model on

    The examples and the instances of the theorems below run the methods
    on a small scene.  [plain_cymj] stands in for the libraries: its
    off-screen renderer leaves a marker and an overlay text of its own in
    the context it renders with, so that what the viewer restores
    afterwards is visible. *)

Definition plain_add_overlay (gridpos : Z) (text1 text2 : string)
  (overlay : gmap Z (string * string)) : gmap Z (string * string) :=
  let '(old1, old2) := default (EmptyString, EmptyString) (overlay !! gridpos) in
  <[gridpos := ((old1 ++ text1 ++ "|")%string, (old2 ++ text2 ++ "|")%string)]> overlay.

Definition plain_camera : PyMjvCamera :=
  {| type := CAMERA_FREE; fixedcamid := -1; trackbodyid := -1;
     lookat := [0; 0; 0]%float; distance := 2%float; azimuth := 90%float;
     elevation := (-45)%float |}.

Definition plain_sim_render (width height : Z) (s : MjSim)
  : MjRenderContext * Image :=
  let c := default {| _markers := []; _overlay := ∅; cam := plain_camera |}
             (_render_context_offscreen s) in
  ({| _markers := [("drawn", ParamNum 1%float)] :: _markers c;
      _overlay := <[GRID_TOPLEFT := ("rendered", "")]> (_overlay c);
      cam := set_fixedcamid 0 (cam c) |},
   [[[width; height; 0]]; [[0; 0; Z.of_nat (length (_markers c))]]]).

Definition plain_move_camera (s : MjSim) (action : mjtMouse) (dx dy : float)
  (c : PyMjvCamera) : PyMjvCamera :=
  {| type := type c; fixedcamid := fixedcamid c; trackbodyid := trackbodyid c;
     lookat := lookat c; distance := distance c;
     azimuth := (azimuth c + dx)%float; elevation := (elevation c + dy)%float |}.

Definition plain_cymj : Cymj :=
  {| CameraFields := PyMjvCamera;
     sim_render := plain_sim_render;
     move_camera := plain_move_camera;
     add_overlay := plain_add_overlay;
     rec_copy := fun c => c;
     rec_assign := fun _ fields => fields;
     format_float := fun template _ => template;
     float_mod := fun x _ => x |}.

Definition example_model : MjModel :=
  {| ncam := 2; opt_timestep := 0.002%float;
     geom_rgba := [[f32_zero; f32_zero; f32_zero; f32_five]];
     body_mocapid := [-1; 0]; geom_bodyid := [1] |}.

Definition example_sim : MjSim :=
  {| model := example_model; data_time := 0%float; data_solver_iter := 0;
     nsubsteps := 1; extras := ∅;
     _render_context_offscreen :=
       Some {| _markers := [[("offscreen", ParamStr "marker")]];
               _overlay := {[GRID_TOPRIGHT := ("offscreen", "text")]};
               cam := plain_camera |};
     _render_context_window := ThisViewer |}.

Definition example_window : GlfwWindow :=
  {| framebuffer_size := (1280, 720); window_size := (640, 360);
     keys_down := []; buttons_down := []; cursor_pos := (0, 0)%float;
     should_close := false; pending := [] |}.

Definition example_basic : BasicState :=
  {| window := Some 1; _button_left_pressed := false;
     _button_right_pressed := false; _last_mouse_x := 0; _last_mouse_y := 0;
     _scale := 2%float; exit := false |}.

Definition example_viewer : Viewer :=
  MjViewer.attributes example_sim false
    {| _markers := [[("window", ParamStr "marker")]];
       _overlay := {[GRID_TOPLEFT := ("window", "text")]};
       cam := plain_camera |}
    {| flags := repeat 0 22; frame := 0; geomgroup := repeat 1 5 |}
    example_basic.

Definition example_world : World :=
  {| viewer := example_viewer; sim := example_sim; win := example_window;
     now := 100%float; ticks := []; videos := []; trace := [] |}.

(** A drag on the example window: the left button is down, a shift key
    is held, and the cursor is at (100.25, 50.75) window units, which the
    scale 2 turns into (200, 101) pixels. *)
Definition dragging_world : World :=
  on_win (set_keys_down [glfw.KEY_RIGHT_SHIFT])
    (on_basic (set__button_left_pressed true) example_world).

Definition drag_rel_x : float := Eval vm_compute in (200 / 720)%float.
Definition drag_rel_y : float := Eval vm_compute in (101 / 720)%float.

(** A pass of the render loop on the example world, paused with a single
    step asked for: with no event waiting, and with a release of the
    space key waiting for the poll. *)
Definition stepping_world : World :=
  on_playback (set__advance_by_one_step true)
    (on_playback (set__paused (Some true)) example_world).

Definition space_released_world : World :=
  on_win (set_pending [[Key glfw.KEY_SPACE 0 glfw.RELEASE 0]]) stepping_world.

(** The example world with the playback slowed down to the least speed. *)
Definition slowest_world : World :=
  on_playback (set__run_speed least_speed) example_world.

(** A recording session on the example: every frame is rendered ([D]),
    the recording is started ([V]), [render] is called twice and the
    recording is stopped ([V]). *)
Definition recording_session : M unit :=
  let release key := MjViewer.key_callback (C := plain_cymj) 1 key 0 glfw.RELEASE 0 in
  release glfw.KEY_D ;; release glfw.KEY_V ;;
  MjViewer.render (C := plain_cymj) 3 ;; MjViewer.render (C := plain_cymj) 3 ;;
  release glfw.KEY_V.

(** [n] releases of a key in a row on the stand-in libraries. *)
Fixpoint release_times (n : nat) (key : Z) (w : World) : Outcome unit :=
  match n with
  | O => Ok tt w
  | S n =>
      match MjViewer.key_callback (C := plain_cymj) 1 key 0 glfw.RELEASE 0 w with
      | Ok _ w' => release_times n key w'
      | o => o
      end
  end.

(** * Properties *)

(** ** Running the model *)

Example format_video_path :
  Py.format_int "/tmp/video_%07d.mp4" 12 = Some "/tmp/video_0000012.mp4"%string.
Proof. reflexivity. Qed.

Example int_of_float_truncates :
  Py.int_of_float (-2.75)%float = inr (-2) /\ Py.int_of_float 7.5%float = inr 7.
Proof. split; vm_compute; reflexivity. Qed.

Example init_builds_example_viewer :
  MjViewer.__init__ example_sim false (ctx example_viewer) (vopt example_viewer)
    1 example_window = inr example_viewer.
Proof. vm_compute. reflexivity. Qed.

(** ** The program logic *)

Lemma hoare_bind {A B : Type} (P R Q E : World -> Prop) (m : M A) (k : A -> M B) :
  hoare P m R E -> (forall a, hoare R (k a) Q E) -> hoare P (bind m k) Q E.
Proof.
  intros Hm Hk w HP. unfold bind. specialize (Hm w HP).
  destruct (m w) as [a w'| |]; try assumption. exact (Hk a w' Hm).
Qed.

Lemma hoare_weaken {A : Type} (P P' Q Q' E E' : World -> Prop) (m : M A) :
  hoare P' m Q' E' ->
  (forall w, P w -> P' w) -> (forall w, Q' w -> Q w) -> (forall w, E' w -> E w) ->
  hoare P m Q E.
Proof.
  intros Hm HP HQ HE w Hw. specialize (Hm w (HP w Hw)).
  destruct (m w); auto.
Qed.

Lemma preserves_bind {A B : Type} (P : World -> Prop) (m : M A) (k : A -> M B) :
  preserves P m -> (forall a, preserves P (k a)) -> preserves P (bind m k).
Proof. apply hoare_bind. Qed.

Lemma preserves_ret {A : Type} (P : World -> Prop) (a : A) : preserves P (ret a).
Proof. intros w HP. exact HP. Qed.

Lemma preserves_raise {A : Type} (P : World -> Prop) (e : Py.Exn) :
  preserves P (@raise A e).
Proof. intros w HP. exact HP. Qed.

Lemma preserves_gets {A : Type} (P : World -> Prop) (f : World -> A) :
  preserves P (gets f).
Proof. intros w HP. exact HP. Qed.

Lemma preserves_lift {A : Type} (P : World -> Prop) (r : Py.Exn + A) :
  preserves P (lift r).
Proof. destruct r; intros w HP; exact HP. Qed.

Lemma preserves_modify (P : World -> Prop) (f : World -> World) :
  (forall w, P w -> P (f w)) -> preserves P (modify f).
Proof. intros Hf w HP. exact (Hf w HP). Qed.

Lemma preserves_call (P : World -> Prop) (c : Call) :
  (forall w t, P w -> P (set_trace t w)) -> preserves P (call c).
Proof. intros Hf w HP. exact (Hf w _ HP). Qed.

Lemma preserves_time_time (P : World -> Prop) :
  (forall w t later, P w -> P (set_now t (set_ticks later w))) ->
  preserves P time_time.
Proof.
  intros Hf w HP. unfold time_time. destruct (ticks w); [exact HP | exact (Hf w _ _ HP)].
Qed.

Lemma preserves_when (P : World -> Prop) (c : bool) (body : M unit) :
  preserves P body -> preserves P (when c body).
Proof. destruct c; [trivial | intros _; apply preserves_ret]. Qed.

Lemma preserves_for_each {A : Type} (P : World -> Prop) (l : list A)
  (body : A -> M unit) :
  (forall x, preserves P (body x)) -> preserves P (for_each l body).
Proof.
  intros Hbody. induction l as [|x l IH]; [apply preserves_ret |].
  apply preserves_bind; [apply Hbody | intros _; exact IH].
Qed.

(** The names a proof about a method unfolds to reach the primitives. *)
Create HintDb methods discriminated.
#[export] Hint Unfold
  glfw.get_key glfw.get_mouse_button glfw.get_cursor_pos
  glfw.get_framebuffer_size glfw.get_window_size glfw.window_should_close
  glfw.dispatch glfw.poll_events
  MjViewerBasic.self_move_camera MjViewerBasic.context_render
  MjViewerBasic.key_callback MjViewerBasic._cursor_pos_callback
  MjViewerBasic._mouse_button_callback MjViewerBasic._scroll_callback
  MjViewerBasic.render
  MjViewer.window_framebuffer_size MjViewer.sim_render_offscreen
  MjViewer._read_pixels_as_in_window MjViewer.self_add_overlay
  MjViewer.format MjViewer._create_full_overlay MjViewer.flip_flags
  MjViewer.scale_alpha MjViewer.get_alpha MjViewer.set_alpha
  MjViewer.show_hide_mocap MjViewer.start_video_process
  MjViewer.toggle_video
  MjViewer.capture_screenshot MjViewer.switch_camera MjViewer.move_target
  MjViewer.robot_command MjViewer.on_release MjViewer.key_callback
  MjViewerBasic.callbacks MjViewer.render_inner_loop
  : methods.

(** ** The worker: [save_video] *)

Lemma save_video_loop_sentinel (frames : list Image) (rest : list (option Image))
  (writer : Writer) :
  save_video_loop (map Some frames ++ None :: rest) writer
  = Some ({| writer_filename := writer_filename writer;
             writer_fps := writer_fps writer;
             writer_frames := writer_frames writer ++ frames;
             writer_closed := writer_closed writer |}, rest).
Proof.
  revert writer. induction frames as [|f frames IH]; intros writer; cbn.
  - rewrite app_nil_r. destruct writer; reflexivity.
  - rewrite IH. cbn. rewrite <- app_assoc. reflexivity.
Qed.

(** A queue that ends with the sentinel lets the worker finish. *)
Lemma save_video_loop_total (queue : list (option Image)) (writer : Writer) :
  exists written rest,
    save_video_loop (queue ++ [None]) writer = Some (written, rest).
Proof.
  revert writer. induction queue as [|[f|] queue IH]; intros writer; cbn; eauto.
Qed.

(** C2.  Whatever frames are put on the queue before the first [None],
    and whatever is put after it, [save_video] ends; the writer it closes
    holds exactly those frames, in the order they were put, and what
    follows the first [None] is left on the queue, unread. *)
Theorem save_video_writes_frames_before_sentinel
  (frames : list Image) (rest : list (option Image)) (filename : string)
  (fps : float) :
  save_video (map Some frames ++ None :: rest) filename fps
  = Some ({| writer_filename := filename; writer_fps := fps;
             writer_frames := frames; writer_closed := true |}, rest).
Proof.
  unfold save_video. rewrite save_video_loop_sentinel. reflexivity.
Qed.

(** Without a sentinel the worker waits on the empty queue for ever. *)
Lemma save_video_without_sentinel (frames : list Image) (filename : string)
  (fps : float) :
  save_video (map Some frames) filename fps = None.
Proof.
  unfold save_video. generalize (get_writer filename fps).
  induction frames as [|f frames IH]; intros writer; cbn; [reflexivity |].
  specialize (IH (append_data writer f)).
  destruct (save_video_loop (map Some frames) (append_data writer f)) as [[]|];
    [discriminate | reflexivity].
Qed.

(** ** Invariants through a method *)

(** Putting the sentinel and joining the worker never hangs, and touches
    the queue, the process, the written videos and the trace only. *)
Lemma preserves_put_join {C : Cymj} (P : World -> Prop) (k : M unit) :
  (forall w q, P w -> P (on_capture (set__video_queue q) w)) ->
  (forall w p, P w -> P (on_capture (set__video_process p) w)) ->
  (forall w v, P w -> P (set_videos v w)) ->
  (forall w t, P w -> P (set_trace t w)) ->
  preserves P k ->
  preserves P (MjViewer.video_queue_put None ;; MjViewer.join_video_process ;; k).
Proof.
  intros Hq Hp Hv Ht Hk w HP.
  unfold bind at 1. unfold MjViewer.video_queue_put, modify.
  set (w1 := on_capture _ w).
  assert (H1 : P w1) by apply Hq, HP.
  assert (Hqueue : exists q, _video_queue (capture (viewer w1)) = q ++ [None]).
  { eexists. reflexivity. }
  clearbody w1. destruct Hqueue as [q Hqueue].
  cbv [bind MjViewer.join_video_process gets call modify when ret raise hang].
  destruct (_video_process (capture (viewer w1))) as [p|] eqn:Hproc; [|exact H1].
  destruct (process_running p).
  - cbn [set_trace viewer capture]. rewrite Hqueue. unfold save_video.
    destruct (save_video_loop_total q (get_writer (process_filename p) (process_fps p)))
      as (written & rest & ->).
    apply Hk. apply Hp, Hv, Hq, Ht, H1.
  - apply Hk. apply Ht, H1.
Qed.

(** [preserving leaf]: an invariant is pushed through the structure of a
    method; [leaf] closes what is left at an update of the state, and a
    branch the hypotheses exclude is closed by [leaf] too. *)
Ltac preserving leaf :=
  cbv beta zeta;
  cbn [glfw.cursor_pos_callback glfw.mouse_button_callback glfw.scroll_callback
         glfw.key_callback];
  lazymatch goal with
  | |- preserves _ (bind (MjViewer.video_queue_put None) _) =>
      apply preserves_put_join; [intros; leaf .. | preserving leaf]
  | |- preserves _ (MjViewer.video_queue_put _) =>
      unfold MjViewer.video_queue_put; preserving leaf
  | |- preserves _ (bind _ _) =>
      apply preserves_bind; [preserving leaf | intro; preserving leaf]
  | |- preserves _ (ret _) => apply preserves_ret
  | |- preserves _ (raise _) => apply preserves_raise
  | |- preserves _ (gets _) => apply preserves_gets
  | |- preserves _ (lift _) => apply preserves_lift
  | |- preserves _ (when _ _) => apply preserves_when; preserving leaf
  | |- preserves _ (for_each _ _) =>
      apply preserves_for_each; intro; preserving leaf
  | |- preserves _ (call _) => apply preserves_call; intros; leaf
  | |- preserves _ (modify _) => apply preserves_modify; intros; leaf
  | |- preserves _ time_time => apply preserves_time_time; intros; leaf
  | |- preserves _ (if ?b then _ else _) =>
      destruct b eqn:?; first [ solve [exfalso; leaf] | preserving leaf ]
  | |- preserves _ (match ?x with _ => _ end) => destruct x; preserving leaf
  | |- _ => first [ eassumption | leaf ]
  end.

(** The leaf for an invariant that the update does not touch. *)
Ltac untouched := cbn in *; first [assumption | congruence].

(** ** The mouse: [_cursor_pos_callback] *)

Section Mouse.
Context {C : Cymj}.

(** C4.  With a button pressed, and where the scaled cursor position
    [(x, y)] and the two quotients by the framebuffer height exist (the
    position is finite, the height is not zero), the callback returns
    after exactly one call of [move_camera], with the action of the
    pressed button and the shift keys and with the displacement
    [(dx / height, dy / height)], and [_last_mouse_x], [_last_mouse_y]
    hold the scaled position. Nothing else changes. *)
Theorem cursor_drag_moves_camera (window : Z) (xpos ypos : float) (w : World)
  (x y : Z) (rel_x rel_y : float) :
  let b := basic (viewer w) in
  let height := (framebuffer_size (win w)).2 in
  let action := drag_action (_button_right_pressed b) (shift_held w) in
  _button_left_pressed b || _button_right_pressed b = true ->
  Py.int_of_float (_scale b * xpos)%float = inr x ->
  Py.int_of_float (_scale b * ypos)%float = inr y ->
  Py.int_truediv (x - _last_mouse_x b) height = inr rel_x ->
  Py.int_truediv (y - _last_mouse_y b) height = inr rel_y ->
  MjViewerBasic._cursor_pos_callback window xpos ypos w
  = Ok tt (on_basic (set__last_mouse_y y)
             (on_basic (set__last_mouse_x x)
                (on_cam (move_camera (sim w) action rel_x rel_y)
                   (set_trace (trace w ++ [CallMoveCamera action rel_x rel_y]) w)))).
Proof.
  intros b height action Hpressed Hx Hy Hrx Hry. subst b height.
  unfold MjViewerBasic._cursor_pos_callback.
  cbv [bind gets glfw.get_key glfw.get_framebuffer_size].
  rewrite Hpressed. cbn [negb].
  rewrite Hx. cbn [lift ret]. rewrite Hy. cbn [lift ret].
  destruct (framebuffer_size (win w)) as [width h] eqn:Hfb.
  cbn [snd] in *. rewrite Hrx, Hry. cbn [lift ret].
  match goal with
  | |- context [MjViewerBasic.self_move_camera ?a _ _ _] =>
      replace a with action
  end.
  - reflexivity.
  - subst action. unfold drag_action, shift_held.
    destruct (_button_right_pressed (basic (viewer w))),
      (_button_left_pressed (basic (viewer w)));
      try discriminate Hpressed;
      destruct (bool_decide (glfw.KEY_LEFT_SHIFT ∈ keys_down (win w))),
        (bool_decide (glfw.KEY_RIGHT_SHIFT ∈ keys_down (win w))); reflexivity.
Qed.

(** C5.  With neither button recorded as pressed the callback returns at
    once: no call is made and the world is the one it started from. *)
Theorem cursor_without_button_is_noop (window : Z) (xpos ypos : float)
  (w : World) :
  _button_left_pressed (basic (viewer w)) = false ->
  _button_right_pressed (basic (viewer w)) = false ->
  MjViewerBasic._cursor_pos_callback window xpos ypos w = Ok tt w.
Proof.
  intros Hleft Hright. unfold MjViewerBasic._cursor_pos_callback.
  cbv [bind gets]. rewrite Hleft, Hright. reflexivity.
Qed.

End Mouse.

Lemma cursor_drag_moves_camera_witness :
  MjViewerBasic._cursor_pos_callback (C := plain_cymj) 1 100.25%float 50.75%float
    dragging_world
  = Ok tt (on_basic (set__last_mouse_y 101)
             (on_basic (set__last_mouse_x 200)
                (on_cam (plain_move_camera example_sim MOUSE_ROTATE_H drag_rel_x
                           drag_rel_y)
                   (set_trace [CallMoveCamera MOUSE_ROTATE_H drag_rel_x drag_rel_y]
                      dragging_world)))).
Proof.
  apply (cursor_drag_moves_camera (C := plain_cymj) 1 100.25%float 50.75%float
           dragging_world 200 101 drag_rel_x drag_rel_y);
    vm_compute; reflexivity.
Defined.

Lemma cursor_without_button_is_noop_witness :
  MjViewerBasic._cursor_pos_callback (C := plain_cymj) 1 100.25%float 50.75%float
    example_world
  = Ok tt example_world.
Proof.
  apply (cursor_without_button_is_noop (C := plain_cymj) 1 100.25%float
           50.75%float example_world); reflexivity.
Defined.

(** ** Double buffering: [_read_pixels_as_in_window] *)

Arguments Py.format_int : simpl never.
Arguments Py.is_zero : simpl never.
Arguments save_video : simpl never.
Arguments save_video_loop : simpl never.

Section ReadPixels.
Context {C : Cymj}.

(** Finding the resolution changes nothing, also when it raises. *)
Lemma resolution_outcome (resolution : option (Z * Z)) (w : World) :
  match (match resolution with
         | None => MjViewer.window_framebuffer_size
         | Some r => ret r
         end) w with
  | Ok _ w' | Raise _ w' => w' = w
  | Hang => False
  end.
Proof.
  destruct resolution; [reflexivity |].
  cbv [MjViewer.window_framebuffer_size bind gets glfw.get_framebuffer_size].
  destruct (_render_context_window (sim w)); [| reflexivity].
  destruct (window (basic (viewer w))); reflexivity.
Qed.

(** C1.  When the simulator has an off-screen context, a call of
    [_read_pixels_as_in_window] leaves it with the markers, the overlay
    and the camera it had before the call, whatever the renderer did to
    them in between and whether the call returns or raises; the one
    thing used of the helpers is that [rec_assign] of a [rec_copy] writes
    the copied camera back. *)
Theorem read_pixels_restores_offscreen (resolution : option (Z * Z)) (w : World)
  (offscreen_ctx : MjRenderContext) :
  CopyAssign C ->
  _render_context_offscreen (sim w) = Some offscreen_ctx ->
  match MjViewer._read_pixels_as_in_window resolution w with
  | Ok _ w' | Raise _ w' =>
      exists after,
        _render_context_offscreen (sim w') = Some after
        /\ same_context_state offscreen_ctx after
  | Hang => False
  end.
Proof.
  intros Hcopy Hoff. unfold MjViewer._read_pixels_as_in_window.
  unfold bind at 1.
  pose proof (resolution_outcome resolution w) as Hres.
  destruct (match resolution with
            | None => MjViewer.window_framebuffer_size
            | Some r => ret r
            end w) as [r w0|e w0|]; [ | | contradiction ]; subst w0.
  2:{ exists offscreen_ctx. repeat split. exact Hoff. }
  destruct (MjViewer.limit_resolution r) as [width height].
  cbv [bind gets when ret modify]. rewrite Hoff.
  rewrite bool_decide_eq_false_2 by discriminate.
  rewrite Hoff.
  cbv [MjViewer.sim_render_offscreen bind call modify gets ret].
  match goal with
  | |- context [sim_render width height ?s] =>
      destruct (sim_render width height s) as [c img]
  end.
  cbn. eexists. split; [reflexivity |].
  repeat split; cbn.
  - apply (right_id ∅ (∪)).
  - apply Hcopy.
Qed.

(** Without an off-screen context the first rendering creates one, and
    the call ends with that context as it was created. *)
Lemma read_pixels_first_render (r : Z * Z) (w : World) :
  CopyAssign C ->
  _render_context_offscreen (sim w) = None ->
  let '(width, height) := MjViewer.limit_resolution r in
  let created := (sim_render width height (sim w)).1 in
  match MjViewer._read_pixels_as_in_window (Some r) w with
  | Ok _ w' =>
      exists after,
        _render_context_offscreen (sim w') = Some after
        /\ same_context_state created after
  | _ => False
  end.
Proof.
  intros Hcopy Hoff. unfold MjViewer._read_pixels_as_in_window.
  cbv [bind gets when ret modify MjViewer.sim_render_offscreen call].
  destruct (MjViewer.limit_resolution r) as [width height].
  rewrite Hoff. rewrite bool_decide_eq_true_2 by reflexivity.
  cbn [sim set_trace].
  destruct (sim_render width height (sim w)) as [c0 img0].
  cbn.
  match goal with
  | |- context [sim_render width height ?s] =>
      destruct (sim_render width height s) as [c img]
  end.
  cbn. eexists. split; [reflexivity |].
  repeat split; cbn.
  - apply (right_id ∅ (∪)).
  - apply Hcopy.
Qed.

(** With a window to take the resolution from, the picture is taken. *)
Lemma read_pixels_returns (w : World) :
  window_available w ->
  exists img w1, MjViewer._read_pixels_as_in_window None w = Ok img w1.
Proof.
  unfold window_available. intros Hwin.
  unfold MjViewer._read_pixels_as_in_window, MjViewer.window_framebuffer_size.
  cbv [bind gets glfw.get_framebuffer_size when ret modify raise
         MjViewer.sim_render_offscreen call].
  destruct (_render_context_window (sim w)) as [|c size].
  - destruct Hwin as [handle ->].
    destruct (MjViewer.limit_resolution (framebuffer_size (win w))) as [width height].
    destruct (_render_context_offscreen (sim w)) as [off|] eqn:Hoff.
    + rewrite bool_decide_eq_false_2 by discriminate. rewrite Hoff.
      match goal with
      | |- context [sim_render width height ?s] =>
          destruct (sim_render width height s) as [c img]
      end.
      eauto.
    + rewrite bool_decide_eq_true_2 by reflexivity.
      destruct (sim_render width height (sim (set_trace (trace w ++ [CallSimRender width height]) w))) as [c0 img0].
      cbn.
      match goal with
      | |- context [sim_render width height ?s] =>
          destruct (sim_render width height s) as [c img]
      end.
      eauto.
  - destruct (MjViewer.limit_resolution size) as [width height].
    destruct (_render_context_offscreen (sim w)) as [off|] eqn:Hoff.
    + rewrite bool_decide_eq_false_2 by discriminate. rewrite Hoff.
      match goal with
      | |- context [sim_render width height ?s] =>
          destruct (sim_render width height s) as [c' img]
      end.
      eauto.
    + rewrite bool_decide_eq_true_2 by reflexivity.
      destruct (sim_render width height (sim (set_trace (trace w ++ [CallSimRender width height]) w))) as [c0 img0].
      cbn.
      match goal with
      | |- context [sim_render width height ?s] =>
          destruct (sim_render width height s) as [c' img]
      end.
      eauto.
Qed.

(** The viewer object itself is not touched. *)
Lemma read_pixels_keeps_viewer (resolution : option (Z * Z)) (v : Viewer) :
  preserves (fun w => viewer w = v) (MjViewer._read_pixels_as_in_window resolution).
Proof. autounfold with methods. preserving untouched. Qed.

End ReadPixels.

Lemma plain_copy_assign : CopyAssign plain_cymj.
Proof. intros dst src. reflexivity. Qed.

Lemma read_pixels_restores_offscreen_witness :
  match MjViewer._read_pixels_as_in_window (C := plain_cymj) None example_world with
  | Ok _ w' | Raise _ w' =>
      exists after,
        _render_context_offscreen (sim w') = Some after
        /\ same_context_state
             {| _markers := [[("offscreen", ParamStr "marker")]];
                _overlay := {[GRID_TOPRIGHT := ("offscreen", "text")]};
                cam := plain_camera |} after
  | Hang => False
  end.
Proof.
  apply (read_pixels_restores_offscreen (C := plain_cymj) None example_world).
  - exact plain_copy_assign.
  - reflexivity.
Defined.

Example limit_resolution_examples :
  MjViewer.limit_resolution (1280, 720) = (1280, 720)
  /\ MjViewer.limit_resolution (3000, 2000) = (1488, 992)
  /\ MjViewer.limit_resolution (650, 0) = (640, 0).
Proof. vm_compute. repeat split; reflexivity. Qed.

(** On the example the picture is taken with the window's marker and
    camera (the stand-in renderer reports the number of markers it was
    given in the last pixel), and is returned upside down. *)
Example read_pixels_example :
  match MjViewer._read_pixels_as_in_window (C := plain_cymj) None example_world with
  | Ok img w' =>
      img = [[[0; 0; 1]]; [[1280; 720; 0]]]
      /\ trace w' = [CallSimRender 1280 720]
  | _ => False
  end.
Proof. vm_compute. split; reflexivity. Qed.

(** ** Keys: the screenshot and the video recording *)

(** Closes a branch that the hypothesis on the key excludes. *)
Ltac key_excluded :=
  match goal with
  | H : ~ (_ /\ _) |- False =>
      apply H; split;
      [ apply Z.eqb_eq; assumption
      | apply Z.eqb_eq; apply negb_false_iff; assumption ]
  end.

Section Capture.
Context {C : Cymj}.

(** C6.  Releasing [T] writes the picture that
    [_read_pixels_as_in_window] returns to the file named by
    [_image_path % _image_idx], with the index as it was before the call,
    and then adds one to [_image_idx] (where there is a window to take
    the picture of and the name can be formatted).  No other key, and no
    press of [T], changes [_image_idx]. *)
Theorem screenshot_key (window scancode mods : Z) (w : World) :
  (forall filename,
     window_available w ->
     Py.format_int (_image_path (capture (viewer w))) (_image_idx (capture (viewer w)))
     = Some filename ->
     exists img w1,
       MjViewer._read_pixels_as_in_window None w = Ok img w1
       /\ MjViewer.key_callback window glfw.KEY_T scancode glfw.RELEASE mods w
          = Ok tt (on_capture (set__image_idx (_image_idx (capture (viewer w)) + 1))
                     (set_trace (trace w1 ++ [CallImwrite filename img]) w1)))
  /\ (forall key action,
        ~ (key = glfw.KEY_T /\ action = glfw.RELEASE) ->
        match MjViewer.key_callback window key scancode action mods w with
        | Ok _ w' | Raise _ w' =>
            _image_idx (capture (viewer w')) = _image_idx (capture (viewer w))
        | Hang => False
        end).
Proof.
  split.
  - intros filename Hwin Hname.
    destruct (read_pixels_returns w Hwin) as (img & w1 & Hread).
    exists img, w1. split; [exact Hread |].
    pose proof (read_pixels_keeps_viewer None (viewer w) w eq_refl) as Hview.
    rewrite Hread in Hview.
    unfold MjViewer.key_callback. cbn [Z.eqb glfw.RELEASE negb Pos.eqb].
    unfold bind at 1. unfold MjViewer.on_release.
    cbv [bind gets glfw.get_key].
    cbn [Z.eqb glfw.KEY_T glfw.KEY_TAB glfw.KEY_H glfw.KEY_SPACE glfw.KEY_RIGHT
           glfw.KEY_V glfw.KEY_ESCAPE Pos.eqb andb orb].
    unfold MjViewer.capture_screenshot. unfold bind at 1. rewrite Hread.
    cbv [bind gets MjViewer.format]. rewrite Hview, Hname.
    cbv [ret call modify MjViewerBasic.key_callback when].
    cbn [Z.eqb glfw.RELEASE glfw.KEY_T glfw.KEY_ESCAPE Pos.eqb andb].
    unfold on_capture, on_viewer. cbn. rewrite Hview. reflexivity.
  - intros key action Hne.
    assert (H : preserves
                  (fun w' => _image_idx (capture (viewer w'))
                             = _image_idx (capture (viewer w)))
                  (MjViewer.key_callback window key scancode action mods)).
    { autounfold with methods. preserving ltac:(first [untouched | key_excluded]). }
    exact (H w eq_refl).
Qed.

(** A viewer as [__init__] leaves it can start a recording, and holds
    the model's number of cameras. *)
Lemma fresh_viewer_is_ready (s : MjSim) (display_all_text : bool)
  (base : MjRenderContext) (options : PyMjvOption) (b : BasicState) (w : World) :
  viewer w = MjViewer.attributes s display_all_text base options b ->
  video_ready w /\ recording w = false /\ _ncam (viewer w) = ncam (model s).
Proof.
  intros Hv. unfold video_ready, recording. rewrite Hv. cbn.
  repeat split. eexists. reflexivity.
Qed.
(** No key makes the callback hang: the worker that is joined has just
    been sent its sentinel. *)
Lemma key_callback_never_hangs (window key scancode action mods : Z) :
  preserves (fun _ => True) (MjViewer.key_callback window key scancode action mods).
Proof. autounfold with methods. preserving ltac:(exact I). Qed.

(** C3.  Releasing [V], or [ESC] while a recording is on, flips
    [_record_video].  When that switches the recording on, a worker
    running [save_video] is started on the file
    [_video_path % _video_idx] and [_video_idx] stays; when it switches
    the recording off, the sentinel [None] is put on the queue, the
    worker is joined (it has then written the queued frames and closed
    its file), and [_video_idx] grows by one. *)
Theorem video_key_toggles_recording (window key scancode mods : Z) (w : World) :
  key = glfw.KEY_V \/ (key = glfw.KEY_ESCAPE /\ recording w = true) ->
  video_ready w ->
  exists w',
    MjViewer.key_callback window key scancode glfw.RELEASE mods w = Ok tt w'
    /\ recording w' = negb (recording w)
    /\ if recording w' then recording_started w w' else recording_stopped key w w'.
Proof.
  unfold recording, video_ready. intros Hkey Hready.
  unfold MjViewer.key_callback, MjViewer.on_release, MjViewer.toggle_video.
  assert (Hstop :
    forall p, _record_video (capture (viewer w)) = true ->
      _video_process (capture (viewer w)) = Some p -> process_running p = true ->
      exists written rest,
        save_video (_video_queue (capture (viewer w)) ++ [None])
          (process_filename p) (process_fps p) = Some (written, rest)).
  { intros p _ _ _. unfold save_video.
    destruct (save_video_loop_total (_video_queue (capture (viewer w)))
                (get_writer (process_filename p) (process_fps p)))
      as (written0 & rest & ->). eauto. }
  cbv [bind gets modify ret call when lift raise hang glfw.get_key
         MjViewer.video_queue_put MjViewer.join_video_process
         MjViewer.start_video_process MjViewer.format MjViewerBasic.key_callback].
  destruct Hkey as [-> | [-> Hrec]];
    [destruct (_record_video (capture (viewer w))) eqn:Hrec |].
  - (* V while recording: the recording stops *)
    destruct Hready as (p & Hproc & Hrun).
    destruct (Hstop p eq_refl Hproc Hrun) as (written & rest & Hsave).
    repeat (progress (cbn; rewrite ?Hrec, ?Hproc, ?Hrun, ?Hsave)).
    eexists. split; [reflexivity |]. cbn. rewrite ?Hrec. cbn. split; [reflexivity |].
    exists p, written, rest. repeat split; assumption || reflexivity.
  - (* V while not recording: the recording starts *)
    destruct Hready as (Hzero & filename & Hname).
    unfold Py.float_div.
    repeat (progress (cbn; rewrite ?Hrec, ?Hzero, ?Hname)).
    eexists. split; [reflexivity |]. cbn. rewrite ?Hrec. cbn. split; [reflexivity |].
    exists filename. repeat split; assumption || reflexivity.
  - (* ESC while recording: the recording stops *)
    rewrite Hrec in Hready. destruct Hready as (p & Hproc & Hrun).
    destruct (Hstop p Hrec Hproc Hrun) as (written & rest & Hsave).
    repeat (progress (cbn; rewrite ?Hrec, ?Hproc, ?Hrun, ?Hsave)).
    eexists. split; [reflexivity |]. cbn. rewrite ?Hrec. cbn. split; [reflexivity |].
    exists p, written, rest. rewrite <- app_assoc.
    repeat split; assumption || reflexivity.
Qed.

End Capture.

(** The two keys on the example world: a screenshot, and the start of a
    recording. *)
Lemma screenshot_key_witness :
  exists img w1,
    MjViewer._read_pixels_as_in_window (C := plain_cymj) None example_world = Ok img w1
    /\ MjViewer.key_callback (C := plain_cymj) 1 glfw.KEY_T 0 glfw.RELEASE 0
         example_world
       = Ok tt (on_capture (set__image_idx (0 + 1))
                  (set_trace (trace w1 ++ [CallImwrite "/tmp/frame_0000000.png" img])
                     w1)).
Proof.
  apply (proj1 (screenshot_key (C := plain_cymj) 1 0 0 example_world)).
  - exists 1. reflexivity.
  - reflexivity.
Defined.

(** The screenshot on the example: the file written and the new index. *)
Example screenshot_example :
  match MjViewer.key_callback (C := plain_cymj) 1 glfw.KEY_T 0 glfw.RELEASE 0
          example_world with
  | Ok _ w' =>
      _image_idx (capture (viewer w')) = 1
      /\ trace w'
         = [CallSimRender 1280 720;
            CallImwrite "/tmp/frame_0000000.png" [[[0; 0; 1]]; [[1280; 720; 0]]]]
  | _ => False
  end.
Proof. vm_compute. split; reflexivity. Qed.

Lemma example_video_ready : video_ready example_world.
Proof. split; [vm_compute; reflexivity | eexists; vm_compute; reflexivity]. Qed.

Lemma video_key_toggles_recording_witness :
  exists w',
    MjViewer.key_callback (C := plain_cymj) 1 glfw.KEY_V 0 glfw.RELEASE 0 example_world
    = Ok tt w'
    /\ recording w' = negb (recording example_world)
    /\ if recording w' then recording_started example_world w'
       else recording_stopped glfw.KEY_V example_world w'.
Proof.
  apply (video_key_toggles_recording (C := plain_cymj) 1 glfw.KEY_V 0 0 example_world).
  - left. reflexivity.
  - exact example_video_ready.
Defined.

(** The session leaves one closed video file with the two frames that
    were rendered, in their order, an empty queue and the next index. *)
Example recording_session_example :
  match recording_session example_world with
  | Ok _ w' =>
      videos w'
      = [{| writer_filename := "/tmp/video_0000000.mp4";
            writer_fps := 60%float;
            writer_frames := [[[[0; 0; 1]]; [[1280; 720; 0]]];
                              [[[0; 0; 0]]; [[1280; 720; 0]]]];
            writer_closed := true |}]
      /\ _video_queue (capture (viewer w')) = []
      /\ _video_idx (capture (viewer w')) = 1
      /\ recording w' = false
  | _ => False
  end.
Proof. vm_compute. repeat split; reflexivity. Qed.

(** ** Keys: the camera index *)

Section Camera.
Context {C : Cymj}.

(** Only a release of [TAB] touches the camera of the viewer; no key
    changes the number of cameras. *)
Lemma other_keys_keep_camera (window key scancode action mods : Z)
  (c : PyMjvCamera) (n m : Z) :
  ~ (key = glfw.KEY_TAB /\ action = glfw.RELEASE) ->
  preserves (fun w => cam (ctx (viewer w)) = c /\ ncam (model (sim w)) = n
                      /\ _ncam (viewer w) = m)
    (MjViewer.key_callback window key scancode action mods).
Proof.
  intros Hne. autounfold with methods.
  preserving ltac:(first [untouched | key_excluded]).
Qed.

(** C8.  Where [_ncam] is the model's number of cameras (as [__init__]
    sets it) and [-1 <= cam.fixedcamid < ncam] holds before a call of
    [key_callback], both hold again after it, for every key and action
    and whether the call returns or raises; and after a release of [TAB]
    the camera is free exactly when its index is [-1], fixed otherwise. *)
Theorem camera_index_invariant (window key scancode action mods : Z) (w : World) :
  _ncam (viewer w) = ncam (model (sim w)) ->
  camera_index_ok w ->
  match MjViewer.key_callback window key scancode action mods w with
  | Ok _ w' | Raise _ w' =>
      _ncam (viewer w') = ncam (model (sim w'))
      /\ camera_index_ok w'
      /\ (key = glfw.KEY_TAB -> action = glfw.RELEASE -> camera_kind_ok w')
  | Hang => False
  end.
Proof.
  intros Hncam Hok. unfold camera_index_ok, camera_kind_ok in *.
  destruct (decide (key = glfw.KEY_TAB /\ action = glfw.RELEASE)) as [[-> ->] | Hne].
  - unfold MjViewer.key_callback, MjViewer.on_release, MjViewer.switch_camera.
    cbv [bind gets modify ret call when lift raise glfw.get_key
           MjViewerBasic.key_callback].
    cbn. rewrite Hncam.
    destruct (ncam (model (sim w)) <=? fixedcamid (cam (ctx (viewer w))) + 1) eqn:Hwrap;
      cbn.
    + split; [exact Hncam |]. split; [lia | reflexivity].
    + apply Z.leb_gt in Hwrap. split; [exact Hncam |]. split; [lia |]. intros _ _.
      destruct (fixedcamid (cam (ctx (viewer w))) + 1 =? -1) eqn:Heq;
        [apply Z.eqb_eq in Heq; lia | reflexivity].
  - pose proof (other_keys_keep_camera window key scancode action mods
                  (cam (ctx (viewer w))) (ncam (model (sim w))) (_ncam (viewer w))
                  Hne w (conj eq_refl (conj eq_refl eq_refl))) as H.
    destruct (MjViewer.key_callback window key scancode action mods w)
      as [a w'|e w'|]; try exact H;
      destruct H as (-> & -> & ->);
      (split; [exact Hncam |]; split;
       [exact Hok | intros; exfalso; apply Hne; split; assumption]).
Qed.

End Camera.

Lemma camera_index_invariant_witness :
  match MjViewer.key_callback (C := plain_cymj) 1 glfw.KEY_TAB 0 glfw.RELEASE 0
          example_world with
  | Ok _ w' | Raise _ w' =>
      _ncam (viewer w') = ncam (model (sim w'))
      /\ camera_index_ok w'
      /\ (glfw.KEY_TAB = glfw.KEY_TAB -> glfw.RELEASE = glfw.RELEASE ->
          camera_kind_ok w')
  | Hang => False
  end.
Proof.
  apply (camera_index_invariant (C := plain_cymj) 1 glfw.KEY_TAB 0 glfw.RELEASE 0
           example_world).
  - reflexivity.
  - unfold camera_index_ok. cbn. lia.
Defined.

(** Three releases of [TAB] on the example, where the model has two
    cameras: the index goes from -1 through 0 and 1 back to -1. *)
Example tab_cycles_cameras :
  let tab := MjViewer.key_callback (C := plain_cymj) 1 glfw.KEY_TAB 0 glfw.RELEASE 0 in
  let camera w := (fixedcamid (cam (ctx (viewer w))), type (cam (ctx (viewer w)))) in
  match tab example_world with
  | Ok _ w1 =>
      match tab w1 with
      | Ok _ w2 =>
          match tab w2 with
          | Ok _ w3 =>
              camera w1 = (0, CAMERA_FIXED) /\ camera w2 = (1, CAMERA_FIXED)
              /\ camera w3 = (-1, CAMERA_FREE)
          | _ => False
          end
      | _ => False
      end
  | _ => False
  end.
Proof. vm_compute. repeat split; reflexivity. Qed.

(** ** The render loop *)

(** Decides an excluded branch by the comparisons of the key. *)
Ltac key_compared :=
  repeat match goal with
         | H : context [?a =? ?b] |- _ => destruct (a =? b); try discriminate H
         end;
  cbn in *; congruence.

Section Render.
Context {C : Cymj}.

Lemma inner_loop_keeps_advance :
  preserves (fun w => _advance_by_one_step (playback (viewer w)) = true)
    MjViewer.render_inner_loop.
Proof.
  autounfold with methods. preserving untouched.
Qed.

Lemma key_keeps_pause (window key scancode action mods : Z) :
  (key =? glfw.KEY_SPACE) && (action =? glfw.RELEASE) = false ->
  preserves paused_now (MjViewer.key_callback window key scancode action mods).
Proof.
  intros Hne. unfold paused_now. autounfold with methods.
  preserving ltac:(first [untouched | key_compared]).
Qed.

Lemma dispatch_keeps_pause (window : Z) (e : GlfwEvent) :
  toggles_pause e = false ->
  preserves paused_now
    (glfw.dispatch (MjViewerBasic.callbacks MjViewer.key_callback) window e).
Proof.
  intros Hne. unfold glfw.dispatch.
  apply preserves_bind; [apply preserves_modify; intros; assumption | intros _].
  destruct e; cbn [MjViewerBasic.callbacks glfw.cursor_pos_callback
                     glfw.mouse_button_callback glfw.scroll_callback
                     glfw.key_callback];
    try (unfold paused_now; autounfold with methods; preserving untouched).
  apply key_keeps_pause. exact Hne.
Qed.

Lemma events_keep_pause (window : Z) (batch : list GlfwEvent) :
  forallb (fun e => negb (toggles_pause e)) batch = true ->
  preserves paused_now
    (for_each batch (glfw.dispatch (MjViewerBasic.callbacks MjViewer.key_callback) window)).
Proof.
  induction batch as [|e batch IH]; cbn [forallb for_each]; intros Hall.
  - apply preserves_ret.
  - apply andb_true_iff in Hall as [He Hrest].
    apply preserves_bind; [| intros _; exact (IH Hrest)].
    apply dispatch_keeps_pause. apply negb_true_iff. exact He.
Qed.

Lemma basic_render_keeps_pause (w0 : World) :
  forallb (fun e => negb (toggles_pause e)) (next_events w0) = true ->
  hoare (before_poll w0) (MjViewerBasic.render MjViewer.key_callback)
    paused_now paused_now.
Proof.
  intros Hall w (Hp & Hwin & Hwindow).
  unfold next_events in Hall. rewrite <- Hwindow, <- Hwin in Hall.
  unfold MjViewerBasic.render.
  cbv [bind gets glfw.window_should_close MjViewerBasic.context_render call
         modify when ret glfw.poll_events].
  destruct (window (basic (viewer w))) as [handle|]; [| exact Hp].
  assert (Hstep : forall w1, paused_now w1 -> pending (win w1) = pending (win w) ->
            match
              match pending (win w1) with
              | [] => fun w2 : World => Ok () w2
              | batch :: later =>
                  fun w2 : World =>
                    for_each batch
                      (glfw.dispatch (MjViewerBasic.callbacks MjViewer.key_callback)
                         handle)
                      (on_win (set_pending later) w2)
              end (set_trace (trace w1 ++ [CallWindowRender (ctx (viewer w1))]) w1)
            with
            | Ok _ w' | Raise _ w' => paused_now w'
            | Hang => False
            end).
  { intros w1 H1 Hpend. rewrite Hpend.
    destruct (pending (win w)) as [|batch later]; [exact H1 |].
    cbn [hd] in Hall. apply (events_keep_pause handle batch Hall). exact H1. }
  cbn.
  destruct (should_close (win w));
    [apply (Hstep (on_basic (set_exit true) w)) | apply (Hstep w)]; auto.
Qed.

Lemma inner_loop_keeps_pause (w0 : World) :
  forallb (fun e => negb (toggles_pause e)) (next_events w0) = true ->
  hoare (before_poll w0) MjViewer.render_inner_loop paused_now paused_now.
Proof.
  intros Hall.
  assert (Hpre : forall (A : Type) (m : M A),
             preserves (before_poll w0) m ->
             hoare (before_poll w0) m (before_poll w0) paused_now).
  { intros A m Hm. eapply hoare_weaken; [exact Hm | auto | auto |].
    intros w H. apply H. }
  unfold MjViewer.render_inner_loop.
  do 4 (eapply hoare_bind;
        [ apply Hpre; unfold before_poll, paused_now; autounfold with methods;
          preserving untouched
        | intro ]).
  eapply hoare_bind; [apply basic_render_keeps_pause; exact Hall | intros _].
  match goal with |- hoare ?P ?m ?P ?P => change (preserves P m) end.
  unfold paused_now. autounfold with methods. preserving untouched.
Qed.

(** C9.  Called while paused with a single step asked for, [render] makes
    exactly one pass of its inner loop: it is the program
    [single_step_pass].  It does not hang; when it returns,
    [_advance_by_one_step] is [False] again, and [_paused] is still [True]
    provided none of the events delivered by the poll of that pass is a
    release of the space key (the callback of such an event toggles
    [_paused] while the frame is rendered). *)
Theorem single_step_while_paused (fuel : nat) (w : World) :
  _paused (playback (viewer w)) = Some true ->
  _advance_by_one_step (playback (viewer w)) = true ->
  MjViewer.render (S fuel) w = single_step_pass w
  /\ match MjViewer.render (S fuel) w with
     | Ok _ w' =>
         _advance_by_one_step (playback (viewer w')) = false
         /\ (forallb (fun e => negb (toggles_pause e)) (next_events w) = true ->
             _paused (playback (viewer w')) = Some true)
     | Raise _ _ => True
     | Hang => False
     end.
Proof.
  intros Hpaused Hadvance.
  set (w1 := on_playback (set__user_overlay (_overlay (ctx (viewer w)))) w).
  assert (Hrender : MjViewer.render (S fuel) w = single_step_pass w).
  { unfold MjViewer.render, single_step_pass.
    cbv [bind modify gets]. fold w1.
    change (_paused (playback (viewer w1))) with (_paused (playback (viewer w))).
    rewrite Hpaused. cbn [Py.truthy MjViewer.paused_loop].
    cbv [bind gets].
    change (_paused (playback (viewer w1))) with (_paused (playback (viewer w))).
    rewrite Hpaused. cbn [Py.truthy].
    pose proof (inner_loop_keeps_advance w1 Hadvance) as Hinner.
    destruct (MjViewer.render_inner_loop w1) as [a w2|e w2|]; try reflexivity.
    rewrite Hinner. reflexivity. }
  split; [exact Hrender |]. rewrite Hrender.
  unfold single_step_pass. cbv [bind modify]. fold w1.
  pose proof (inner_loop_keeps_advance w1 Hadvance) as Hinner.
  pose proof (inner_loop_keeps_pause w) as Hpause.
  destruct (MjViewer.render_inner_loop w1) as [a w2|e w2|] eqn:Hloop;
    [| exact I | exact Hinner].
  split; [reflexivity |].
  intros Hall. specialize (Hpause Hall w1).
  rewrite Hloop in Hpause. apply Hpause.
  repeat split. exact Hpaused.
Qed.

(** C10.  Whenever [render] returns, from any state and with any bound on
    its loops, the viewer's [_markers] and [_overlay] are empty. *)
Theorem render_clears_markers_and_overlay (fuel : nat) (w : World) :
  match MjViewer.render fuel w with
  | Ok _ w' => _markers (ctx (viewer w')) = [] /\ _overlay (ctx (viewer w')) = ∅
  | _ => True
  end.
Proof.
  unfold MjViewer.render.
  cbv [bind modify gets].
  match goal with
  | |- context [if ?b then ?loop else ?frames] =>
      destruct ((if b then loop else frames)
                  (on_playback (set__user_overlay (_overlay (ctx (viewer w)))) w))
        as [a w'|e w'|]
  end; [| exact I ..].
  split; reflexivity.
Qed.

End Render.

Lemma single_step_while_paused_witness :
  MjViewer.render (C := plain_cymj) 1 stepping_world
  = single_step_pass (C := plain_cymj) stepping_world
  /\ match MjViewer.render (C := plain_cymj) 1 stepping_world with
     | Ok _ w' =>
         _advance_by_one_step (playback (viewer w')) = false
         /\ (forallb (fun e => negb (toggles_pause e)) (next_events stepping_world)
             = true ->
             _paused (playback (viewer w')) = Some true)
     | Raise _ _ => True
     | Hang => False
     end.
Proof.
  apply (single_step_while_paused (C := plain_cymj) 0 stepping_world); reflexivity.
Defined.

(** C9, as it was stated, fails: the viewer is paused and a single step
    is asked for, the user releases the space key while the frame is
    drawn, and [render] returns with [_paused] being [False]. *)
Lemma single_step_pause_counterexample :
  _paused (playback (viewer space_released_world)) = Some true
  /\ _advance_by_one_step (playback (viewer space_released_world)) = true
  /\ match MjViewer.render (C := plain_cymj) 1 space_released_world with
     | Ok _ w' =>
         _paused (playback (viewer w')) = Some false
         /\ _advance_by_one_step (playback (viewer w')) = false
     | _ => False
     end.
Proof. vm_compute. repeat split; reflexivity. Qed.

(** [render] does return: not paused, the example world renders one
    frame (0.12 frames are due, which makes one pass) and ends with its
    markers and overlay cleared. *)
Example render_example :
  match MjViewer.render (C := plain_cymj) 2 example_world with
  | Ok _ w' =>
      length (trace w') = 1%nat
      /\ _markers (ctx (viewer w')) = []
      /\ _overlay (ctx (viewer w')) = ∅
      /\ _user_overlay (playback (viewer w')) = {[GRID_TOPLEFT := ("window", "text")]}
      /\ _loop_count (playback (viewer w')) = (-0.88)%float
  | _ => False
  end.
Proof. vm_compute. repeat split; reflexivity. Qed.

(** Paused with no step asked for and no event to come, [render] draws
    the same frame again and again: no bound on its loop is enough. *)
Example render_paused_hangs :
  MjViewer.render (C := plain_cymj) 50 (on_playback (set__paused (Some true)) example_world)
  = Hang.
Proof. vm_compute. reflexivity. Qed.

(** ** Keys: the playback speed

    [S] divides [_run_speed] by 2.0 and [F] multiplies it by 2.0, in
    binary64 arithmetic.  The lemmas below work on the IEEE description
    of the two operations ([SF64div], [SF64mul]), which the primitive
    operations are specified by. *)

Lemma fexp64 (k : Z) : fexp prec emax k = Z.max (k - 53) (-1074).
Proof. reflexivity. Qed.

(** Rounding a mantissa that is already canonical changes nothing. *)
Lemma round_canonical (s : bool) (m : positive) (e : Z) :
  bounded prec emax m e = true ->
  binary_round_aux prec emax s (Z.pos m) e loc_Exact = S754_finite s m e.
Proof.
  unfold bounded, canonical_mantissa. intros H.
  apply andb_true_iff in H as [Hc He]. apply Z.eqb_eq in Hc.
  unfold binary_round_aux, shr_fexp. cbn [Zdigits2].
  rewrite Hc, Z.sub_diag.
  cbn [shr shr_record_of_loc shr_m loc_of_shr_record round_nearest_even Zdigits2].
  rewrite Hc, Z.sub_diag. cbn [shr shr_record_of_loc shr_m].
  rewrite He. reflexivity.
Qed.

(** Rounding drops trailing zero bits when the exponent that results is
    the canonical one. *)
Lemma round_shift (s : bool) (m : positive) (e : Z) (k : positive) (big : positive) :
  bounded prec emax m e = true ->
  Z.pos (digits2_pos big) = Z.pos (digits2_pos m) + Z.pos k ->
  SpecFloat.iter_pos shr_1 k {| shr_m := Z.pos big; shr_r := false; shr_s := false |}
  = {| shr_m := Z.pos m; shr_r := false; shr_s := false |} ->
  binary_round_aux prec emax s (Z.pos big) (e - Z.pos k) loc_Exact = S754_finite s m e.
Proof.
  intros Hb Hd Hshr.
  pose proof Hb as Hb'. unfold bounded, canonical_mantissa in Hb'.
  apply andb_true_iff in Hb' as [Hc He]. apply Z.eqb_eq in Hc.
  unfold binary_round_aux at 1. unfold shr_fexp at 1. cbn [Zdigits2].
  replace (fexp prec emax (Z.pos (digits2_pos big) + (e - Z.pos k)) - (e - Z.pos k))
    with (Z.pos k).
  2:{ rewrite Hd. replace (Z.pos (digits2_pos m) + Z.pos k + (e - Z.pos k))
        with (Z.pos (digits2_pos m) + e) by lia. rewrite Hc. lia. }
  cbn [shr shr_record_of_loc]. rewrite Hshr.
  cbn [shr_m loc_of_shr_record round_nearest_even].
  replace (e - Z.pos k + Z.pos k) with e by lia.
  unfold shr_fexp. cbn [Zdigits2]. rewrite Hc, Z.sub_diag.
  cbn [shr shr_record_of_loc shr_m].
  rewrite He. reflexivity.
Qed.

Lemma div_eucl_exact (a b q : Z) :
  0 < b -> a = q * b -> Z.div_eucl a b = (q, 0).
Proof.
  intros Hb ->.
  pose proof (Z.div_mul q b ltac:(lia)) as Hq.
  pose proof (Z.mod_mul q b ltac:(lia)) as Hr.
  unfold Z.div, Z.modulo in Hq, Hr.
  destruct (Z.div_eucl (q * b) b) as [q' r']. cbn in Hq, Hr. congruence.
Qed.

(** The quotient of a mantissa by that of 2.0, when it is exact. *)
Lemma div_core_exact (m q : positive) (e e' : Z) (s : positive) :
  Z.min (fexp prec emax (Z.pos (digits2_pos m) + e - (53 + -51))) (e - -51) = e' ->
  e - -51 - e' = Z.pos s ->
  Z.pos m * 2 ^ Z.pos s = Z.pos q * 4503599627370496 ->
  SFdiv_core_binary prec emax (Z.pos m) e 4503599627370496 (-51)
  = (Z.pos q, e', loc_Exact).
Proof.
  intros He' Hs Hq. unfold SFdiv_core_binary.
  change (Zdigits2 4503599627370496) with 53. cbn [Zdigits2].
  rewrite He', Hs. rewrite Z.shiftl_mul_pow2 by lia.
  rewrite (div_eucl_exact _ _ (Z.pos q)) by (try exact Hq; lia).
  reflexivity.
Qed.

Lemma digits_of_bounded (m : positive) (e : Z) :
  bounded prec emax m e = true ->
  Z.max (Z.pos (digits2_pos m) + e - 53) (-1074) = e /\ e <= 971.
Proof.
  unfold bounded, canonical_mantissa. intros H.
  apply andb_true_iff in H as [Hc He]. apply Z.eqb_eq in Hc. apply Z.leb_le in He.
  rewrite fexp64 in Hc. change (emax - prec) with 971 in He. split; assumption.
Qed.

Lemma bounded_intro (m : positive) (e : Z) :
  Z.max (Z.pos (digits2_pos m) + e - 53) (-1074) = e -> e <= 971 ->
  bounded prec emax m e = true.
Proof.
  intros Hc He. unfold bounded, canonical_mantissa. rewrite fexp64.
  apply andb_true_iff. split; [apply Z.eqb_eq; exact Hc | apply Z.leb_le; exact He].
Qed.

(** Halving a normal number above the least binade lowers its exponent. *)
Lemma div_two_normal (s : bool) (m : positive) (e : Z) :
  bounded prec emax m e = true -> -1074 < e ->
  SF64div (S754_finite s m e) sf_two = S754_finite s m (e - 1).
Proof.
  intros Hb He. destruct (digits_of_bounded m e Hb) as [Hc Hmax].
  assert (Hd : Z.pos (digits2_pos m) = 53) by lia.
  assert (Hhalf : bounded prec emax m (e - 1) = true) by (apply bounded_intro; lia).
  unfold SF64div, SFdiv, sf_two.
  destruct (Z.eq_dec e (-1073)) as [-> | Hne].
  - rewrite (div_core_exact m m (-1073) (-1074) 52).
    + replace (xorb s false) with s by (destruct s; reflexivity).
      apply round_canonical. exact Hhalf.
    + rewrite fexp64, Hd. reflexivity.
    + reflexivity.
    + reflexivity.
  - rewrite (div_core_exact m (m~0) e (e - 2) 53).
    + replace (xorb s false) with s by (destruct s; reflexivity).
      replace (e - 2) with (e - 1 - Z.pos 1) by lia.
      apply round_shift; [exact Hhalf | cbv [digits2_pos]; lia | reflexivity].
    + rewrite fexp64, Hd. lia.
    + lia.
    + change (2 ^ Z.pos 53) with (2 * 4503599627370496). lia.
Qed.

(** Halving in the least binade halves an even mantissa. *)
Lemma div_two_subnormal (s : bool) (m : positive) :
  bounded prec emax (m~0) (-1074) = true ->
  SF64div (S754_finite s (m~0) (-1074)) sf_two = S754_finite s m (-1074).
Proof.
  intros Hb. destruct (digits_of_bounded _ _ Hb) as [Hc _].
  cbn [digits2_pos] in Hc.
  assert (Hhalf : bounded prec emax m (-1074) = true) by (apply bounded_intro; lia).
  unfold SF64div, SFdiv, sf_two.
  rewrite (div_core_exact (m~0) m (-1074) (-1074) 51).
  - replace (xorb s false) with s by (destruct s; reflexivity).
    apply round_canonical. exact Hhalf.
  - rewrite fexp64. cbn [digits2_pos]. lia.
  - reflexivity.
  - change (2 ^ Z.pos 51) with 2251799813685248. lia.
Qed.

(** Doubling gives the mantissa shifted back. *)
Lemma mul_two_normal (s : bool) (m : positive) (e : Z) :
  bounded prec emax m e = true -> -1074 < e ->
  SF64mul (S754_finite s m (e - 1)) sf_two = S754_finite s m e.
Proof.
  intros Hb He. unfold SF64mul, SFmul, sf_two.
  replace (xorb s false) with s by (destruct s; reflexivity).
  replace (e - 1 + -51) with (e - Z.pos 52) by lia.
  rewrite Pos.mul_comm.
  apply round_shift; [exact Hb | cbv [Pos.mul digits2_pos]; lia | reflexivity].
Qed.

Lemma mul_two_subnormal (s : bool) (m : positive) :
  bounded prec emax (m~0) (-1074) = true ->
  SF64mul (S754_finite s m (-1074)) sf_two = S754_finite s (m~0) (-1074).
Proof.
  intros Hb. unfold SF64mul, SFmul, sf_two.
  replace (xorb s false) with s by (destruct s; reflexivity).
  change (-1074 + -51) with (-1074 - Z.pos 51).
  rewrite Pos.mul_comm.
  apply round_shift; [exact Hb | cbv [Pos.mul digits2_pos]; lia | reflexivity].
Qed.

(** Halving and then doubling a binary64 number gives the number back
    whenever the half is exact. *)
Theorem double_of_half (x : float) :
  halves_exactly x = true -> (x / 2 * 2)%float = x.
Proof.
  unfold halves_exactly. intros Hx.
  apply Prim2SF_inj. rewrite mul_spec, div_spec.
  change (Prim2SF 2) with sf_two.
  pose proof (Prim2SF_valid x) as Hvalid.
  destruct (Prim2SF x) as [s | s | | s m e];
    [destruct s; reflexivity | destruct s; reflexivity | reflexivity |].
  cbn [SpecFloat.valid_binary] in Hvalid.
  destruct (Z.ltb_spec (-1074) e) as [He | He].
  - rewrite (div_two_normal s m e Hvalid He). apply mul_two_normal; assumption.
  - cbn [orb] in Hx.
    destruct (digits_of_bounded m e Hvalid) as [Hc _].
    assert (e = -1074) by lia. subst e.
    destruct m as [m | m |]; try discriminate Hx.
    rewrite (div_two_subnormal s m Hvalid). apply mul_two_subnormal. exact Hvalid.
Qed.

Lemma halves_exactly_above (x : float) :
  (least_exact <=? x)%float = true -> halves_exactly x = true.
Proof.
  rewrite leb_spec. unfold halves_exactly, SFleb.
  change (Prim2SF least_exact) with (S754_finite false 4503599627370496 (-1073)).
  destruct (Prim2SF x) as [s | s | | s m e]; try reflexivity.
  cbn [SFcompare]. destruct s; [discriminate |].
  destruct (Z.compare_spec (-1073) e) as [<- | Hlt | Hgt]; intros H.
  - reflexivity.
  - apply orb_true_iff. left. apply Z.ltb_lt. lia.
  - discriminate H.
Qed.

Section Speed.
Context {C : Cymj}.

(** C7.  A release of [S] sets [_run_speed] to the binary64 quotient of
    its value by 2.0 and a release of [F] to the product of its value by
    2.0; when the half is exact ([halves_exactly]: every speed of at
    least 2^-1021, and below that the ones with an even mantissa), [S]
    followed by [F] leaves [_run_speed], and the whole state, as it
    was. *)
Theorem speed_keys (window scancode mods : Z) (w : World) :
  let x := _run_speed (playback (viewer w)) in
  let release key := MjViewer.key_callback window key scancode glfw.RELEASE mods in
  release glfw.KEY_S w = Ok tt (on_playback (set__run_speed (x / 2)%float) w)
  /\ release glfw.KEY_F w = Ok tt (on_playback (set__run_speed (x * 2)%float) w)
  /\ (halves_exactly x = true ->
      (release glfw.KEY_S ;; release glfw.KEY_F) w = Ok tt w).
Proof.
  intros x release.
  assert (HS : release glfw.KEY_S w
               = Ok tt (on_playback (set__run_speed (x / 2)%float) w)) by reflexivity.
  assert (HF : forall w0, release glfw.KEY_F w0
               = Ok tt (on_playback
                          (set__run_speed
                             (_run_speed (playback (viewer w0)) * 2)%float) w0))
    by reflexivity.
  split; [exact HS |]. split; [apply HF |].
  intros Hx. unfold bind. rewrite HS, HF.
  cbn [on_playback on_viewer viewer set_viewer playback set_playback _run_speed
         set__run_speed].
  fold x. rewrite (double_of_half x Hx). subst x.
  destruct w as [[c o b n p cap u] s g t later v tr]. destruct p. reflexivity.
Qed.

End Speed.

Lemma speed_keys_witness :
  let release key := MjViewer.key_callback (C := plain_cymj) 1 key 0 glfw.RELEASE 0 in
  match (release glfw.KEY_S ;; release glfw.KEY_F) example_world with
  | Ok _ w' => _run_speed (playback (viewer w')) = 1%float
  | _ => False
  end.
Proof.
  cbv zeta.
  pose proof (speed_keys (C := plain_cymj) 1 0 0 example_world) as H.
  cbv zeta in H. destruct H as (_ & _ & H).
  rewrite (H ltac:(vm_compute; reflexivity)). reflexivity.
Defined.

(** C7, as it was stated, fails: the speed 2^-1074 is positive, its half
    rounds to zero, and [S] followed by [F] leaves the speed 0. *)
Lemma slow_then_fast_counterexample :
  let release key := MjViewer.key_callback (C := plain_cymj) 1 key 0 glfw.RELEASE 0 in
  (0 <? _run_speed (playback (viewer slowest_world)))%float = true
  /\ match (release glfw.KEY_S ;; release glfw.KEY_F) slowest_world with
     | Ok _ w' =>
         _run_speed (playback (viewer w')) = 0%float
         /\ _run_speed (playback (viewer w'))
            <> _run_speed (playback (viewer slowest_world))
     | _ => False
     end.
Proof.
  vm_compute. split; [reflexivity |]. split; [reflexivity |].
  intros H. discriminate H.
Qed.

(** That speed is reached from the initial speed 1.0 by 1074 releases of
    [S]. *)
Example least_speed_is_reachable :
  match release_times 1074 glfw.KEY_S example_world with
  | Ok _ w' => _run_speed (playback (viewer w')) = least_speed
  | _ => False
  end.
Proof. vm_compute. reflexivity. Qed.
